(** * host_interface.c: vector multiplication benchmark

    A shallow embedding of [src/host_interface.c] and the properties its
    specification states about it.

    Reading of C used throughout:
    - [int] is 32 bits, two's complement; arithmetic on it wraps modulo 2^32
      ([wrap_int]), as in CompCert C.  ISO C leaves signed overflow
      undefined; the claim C4 shows the driver never gets there.
    - [data_t] is [uint16_t]; its operands are promoted to [int] before
      arithmetic, and a store into a [data_t] reduces modulo 2^16
      ([to_data]).
    - memory is a finite map from blocks to arrays of cells; a cell that
      was never written holds no value.  An access outside a block, through
      the null pointer, to a released block or to an unwritten cell is a
      [fault].
    - [malloc] always finds room for a request of at most [PTRDIFF_MAX]
      bytes and returns the null pointer above.
    - [double] is IEEE 754 binary64: Rocq's primitive floats.
    - the monotonic clock is an oracle; what the program prints is a list of
      [printf] calls with their arguments; [usleep] adds to a counter.
    - a loop carries the number of rounds the model may take ([for_loop]);
      the theorems show it is never exhausted. *)

From Stdlib Require Import ZArith Lia String QArith Qabs.
From Stdlib Require Import Floats.PrimFloat Floats.SpecFloat Floats.FloatOps.
From Stdlib Require Import Numbers.Cyclic.Int63.Uint63.
From stdpp Require Import gmap list.

Local Open Scope Z_scope.

(** ** Configuration (lines 8-15) *)

Definition VECTOR_SIZE : Z := 8.
Definition DATA_WIDTH : Z := 16.   (* no use of it in the source *)
Definition NUM_TESTS : Z := 10000.
Definition LARGE_VECTOR_SIZE : Z := 1024.
Definition SIMULATION_MODE : Z := 1.

(** ** Machine integers *)

Definition INT_MIN : Z := - 2 ^ 31.
Definition INT_MAX : Z := 2 ^ 31 - 1.
Definition PTRDIFF_MAX : Z := 2 ^ 63 - 1.

(** The value of an [int] expression whose mathematical value is [z]. *)
Definition wrap_int (z : Z) : Z := (z + 2 ^ 31) mod 2 ^ 32 - 2 ^ 31.

Definition int_add (x y : Z) : Z := wrap_int (x + y).
Definition int_sub (x y : Z) : Z := wrap_int (x - y).
Definition int_mul (x y : Z) : Z := wrap_int (x * y).
(** [%] on [int]: the remainder has the sign of the dividend. *)
Definition int_rem (x y : Z) : Z := wrap_int (Z.rem x y).

(** Conversion to [data_t] (line 15: [uint16_t]), as done by a store. *)
Definition to_data (z : Z) : Z := z mod 2 ^ 16.

(** Conversion to [size_t] (64 bits, unsigned). *)
Definition to_size_t (z : Z) : Z := z mod 2 ^ 64.

Definition sizeof_data_t : Z := 2.

(** ** Doubles *)

(** Conversion of an integer (an [int] or a [long]) to [double]. *)
Definition double_of_Z (z : Z) : float :=
  if z <? 0 then PrimFloat.opp (PrimFloat.of_uint63 (Uint63.of_Z (- z)))
  else PrimFloat.of_uint63 (Uint63.of_Z z).

(** The exact rational value of a finite double. *)
Definition Q_of_double (x : float) : option Q :=
  match Prim2SF x with
  | S754_zero _ => Some 0%Q
  | S754_finite s m e =>
      let n := if s then Z.neg m else Z.pos m in
      Some (if e <? 0 then (n # Pos.pow 2 (Z.to_pos (- e)))%Q
            else inject_Z (n * 2 ^ e))
  | _ => None
  end.

(** ** The world: memory, clock, sleeps and standard output *)

Definition block := positive.

Inductive ptr :=
| NULL
| Ptr (b : block).
Arguments Ptr b%_positive.

Record timespec := Timespec { tv_sec : Z; tv_nsec : Z }.

Inductive arg :=
| ArgInt (z : Z)
| ArgDouble (x : float)
| ArgStr (s : string).

(** One call of [printf]: the format as written in the source, and the
    arguments. *)
Inductive event :=
| Printf (fmt : string) (args : list arg).

Record world := World {
  heap : gmap block (list (option Z));
  clock : nat -> timespec;   (* the successive readings of CLOCK_MONOTONIC *)
  ticks : nat;               (* how many readings were taken *)
  slept : Z;                 (* microseconds asked of usleep so far *)
  out : list event           (* standard output, oldest first *)
}.

Definition set_heap (h : gmap block (list (option Z))) (w : world) : world :=
  World h (clock w) (ticks w) (slept w) (out w).
Definition set_ticks (t : nat) (w : world) : world :=
  World (heap w) (clock w) t (slept w) (out w).
Definition set_slept (s : Z) (w : world) : world :=
  World (heap w) (clock w) (ticks w) s (out w).
Definition set_out (o : list event) (w : world) : world :=
  World (heap w) (clock w) (ticks w) (slept w) o.

Inductive fault :=
| NullDeref        (* access through the null pointer *)
| Dangling         (* access to a block that is not allocated *)
| OutOfBounds      (* index outside the block *)
| Uninitialised    (* read of a cell never written *)
| InvalidFree      (* free of a block that is not allocated *)
| OutOfFuel.       (* the iteration bound of the model was reached *)

Inductive outcome (A : Type) :=
| Ok (a : A) (w : world)
| Fault (f : fault).
Arguments Ok {A} a w.
Arguments Fault {A} f.

(** Computations: a state monad over [world] with faults. *)
Definition M (A : Type) : Type := world -> outcome A.

Definition ret {A} (a : A) : M A := fun w => Ok a w.
Definition bind {A B} (k : A -> M B) (m : M A) : M B :=
  fun w => match m w with
           | Ok a w' => k a w'
           | Fault f => Fault f
           end.
Definition raise {A} (f : fault) : M A := fun _ => Fault f.

#[global] Instance M_ret : MRet M := @ret.
#[global] Instance M_bind : MBind M := @bind.

(** *** Memory *)

(** [p[i]] read as a [data_t]. *)
Definition load (p : ptr) (i : Z) : M Z := fun w =>
  match p with
  | NULL => Fault NullDeref
  | Ptr b =>
      match heap w !! b with
      | None => Fault Dangling
      | Some cells =>
          if i <? 0 then Fault OutOfBounds
          else match cells !! Z.to_nat i with
               | None => Fault OutOfBounds
               | Some None => Fault Uninitialised
               | Some (Some v) => Ok v w
               end
      end
  end.

(** [p[i] = v], [v] already converted to [data_t]. *)
Definition store (p : ptr) (i : Z) (v : Z) : M unit := fun w =>
  match p with
  | NULL => Fault NullDeref
  | Ptr b =>
      match heap w !! b with
      | None => Fault Dangling
      | Some cells =>
          if (i <? 0) || (Z.of_nat (length cells) <=? i) then Fault OutOfBounds
          else Ok tt (set_heap (<[b := <[Z.to_nat i := Some v]> cells]> (heap w)) w)
      end
  end.

(** [(data_t * )malloc(sizeof(data_t) * count)], [count] an [int]. *)
Definition malloc_data (count : Z) : M ptr := fun w =>
  let bytes := to_size_t (sizeof_data_t * to_size_t count) in
  if PTRDIFF_MAX <? bytes then Ok NULL w
  else
    let b := fresh (dom (heap w)) in
    Ok (Ptr b)
       (set_heap (<[b := replicate (Z.to_nat (bytes / sizeof_data_t)) None]> (heap w)) w).

Definition free (p : ptr) : M unit := fun w =>
  match p with
  | NULL => Ok tt w
  | Ptr b =>
      match heap w !! b with
      | None => Fault InvalidFree
      | Some _ => Ok tt (set_heap (delete b (heap w)) w)
      end
  end.

(** *** Time and output *)

Definition usleep (usec : Z) : M unit := fun w =>
  Ok tt (set_slept (slept w + usec) w).

Definition clock_gettime : M timespec := fun w =>
  Ok (clock w (ticks w)) (set_ticks (S (ticks w)) w).

Definition printf (fmt : string) (args : list arg) : M unit := fun w =>
  Ok tt (set_out (out w ++ [Printf fmt args]) w).

(** *** Loops *)

(** [for (i = ...; test(i); i = step(i)) body(i)], entered with the current
    value of [i]; the body assigns neither [i] nor what the test reads.
    [fuel] bounds the number of rounds of the model: a loop that asks for
    more ends in the fault [OutOfFuel]. *)
Fixpoint for_loop (fuel : nat) (test : Z -> bool) (step : Z -> Z)
    (body : Z -> M unit) (i : Z) : M unit :=
  if test i then
    match fuel with
    | O => raise OutOfFuel
    | S fuel' => body i;; for_loop fuel' test step body (step i)
    end
  else mret tt.

(** [for (int i = lo; i < hi; i++) body(i)]: it takes [hi - lo] rounds,
    [i++] never wrapping below an [int hi]. *)
Definition for_range (lo hi : Z) (body : Z -> M unit) : M unit :=
  for_loop (Z.to_nat (hi - lo)) (fun i => i <? hi) (fun i => int_add i 1) body lo.

(** A loop with a local variable and [break]. *)
Inductive control (S : Type) :=
| Continue (s : S)
| Break (s : S).
Arguments Continue {S} s.
Arguments Break {S} s.

Fixpoint for_loop_break {S} (fuel : nat) (test : Z -> bool) (step : Z -> Z)
    (body : Z -> S -> M (control S)) (i : Z) (s : S) : M S :=
  if test i then
    match fuel with
    | O => raise OutOfFuel
    | S fuel' =>
        c ← body i s;
        match c with
        | Continue s' => for_loop_break fuel' test step body (step i) s'
        | Break s' => mret s'
        end
    end
  else mret s.

Definition for_range_break {S} (lo hi : Z) (body : Z -> S -> M (control S))
    (s : S) : M S :=
  for_loop_break (Z.to_nat (hi - lo)) (fun i => i <? hi) (fun i => int_add i 1)
    body lo s.

(** ** The multiply kernels (lines 17-54) *)

(** [hardware_vector_multiply] with the macro [SIMULATION_MODE] as a
    parameter. *)
Definition hardware_vector_multiply_when (simulation_mode : Z)
    (vector_a vector_b result : ptr) (size : Z) : M unit :=
  if negb (simulation_mode =? 0) then
    usleep 1;;
    for_range 0 size (fun i =>
      x ← load vector_a i;
      y ← load vector_b i;
      store result i (to_data (int_mul x y)))
  else
    for_range 0 size (fun i =>
      x ← load vector_a i;
      y ← load vector_b i;
      store result i (to_data (int_mul x y))).

Definition hardware_vector_multiply : ptr -> ptr -> ptr -> Z -> M unit :=
  hardware_vector_multiply_when SIMULATION_MODE.

Definition software_vector_multiply (vector_a vector_b result : ptr) (size : Z)
    : M unit :=
  for_range 0 size (fun i =>
    x ← load vector_a i;
    y ← load vector_b i;
    store result i (to_data (int_mul x y))).

(** ** Timing (lines 56-62) *)

Definition get_time_sec : M float :=
  ts ← clock_gettime;
  mret (double_of_Z (tv_sec ts) + double_of_Z (tv_nsec ts) / 1000000000)%float.

(** ** The benchmark driver (lines 64-126) *)

Record buffers := Buffers {
  vector_a : ptr;
  vector_b : ptr;
  hw_result : ptr;
  sw_result : ptr
}.

(** Lines 67-70. *)
Definition allocate_vectors (vector_size : Z) : M buffers :=
  a ← malloc_data vector_size;
  b ← malloc_data vector_size;
  hw ← malloc_data vector_size;
  sw ← malloc_data vector_size;
  mret (Buffers a b hw sw).

(** Lines 76-80. *)
Definition init_vectors (bufs : buffers) (vector_size : Z) : M unit :=
  for_range 0 vector_size (fun i =>
    store (vector_a bufs) i (to_data (int_add (int_rem i 100) 1));;
    store (vector_b bufs) i (to_data (int_add (int_rem (int_sub vector_size i) 100) 1))).

(** Lines 83-90. *)
Definition time_hardware (bufs : buffers) (vector_size : Z) : M float :=
  start ← get_time_sec;
  for_range 0 NUM_TESTS (fun _ =>
    hardware_vector_multiply (vector_a bufs) (vector_b bufs) (hw_result bufs) vector_size);;
  end_ ← get_time_sec;
  mret (end_ - start)%float.

(** Lines 93-100. *)
Definition time_software (bufs : buffers) (vector_size : Z) : M float :=
  start ← get_time_sec;
  for_range 0 NUM_TESTS (fun _ =>
    software_vector_multiply (vector_a bufs) (vector_b bufs) (sw_result bufs) vector_size);;
  end_ ← get_time_sec;
  mret (end_ - start)%float.

(** Lines 106-111, the body of the comparison loop: [match_] is the local
    variable [match]. *)
Definition compare_at (bufs : buffers) (i match_ : Z) : M (control Z) :=
  h ← load (hw_result bufs) i;
  s ← load (sw_result bufs) i;
  if negb (h =? s) then
    printf "Mismatch at index %d: HW=%d, SW=%d\n" [ArgInt i; ArgInt h; ArgInt s];;
    mret (Break 0)
  else mret (Continue match_).

(** Lines 103-112: the value returned is the final [match]. *)
Definition verify_results (bufs : buffers) (vector_size : Z) : M Z :=
  for_range_break 0 vector_size (compare_at bufs) 1.

(** Lines 115-119. *)
Definition print_results (vector_size : Z) (hw_time sw_time : float) (match_ : Z)
    : M unit :=
  printf "Vector Size: %d\n" [ArgInt vector_size];;
  printf "Hardware time: %.6f seconds\n" [ArgDouble hw_time];;
  printf "Software time: %.6f seconds\n" [ArgDouble sw_time];;
  printf "Speedup: %.2f x\n" [ArgDouble (sw_time / hw_time)%float];;
  printf "Results %s\n\n"
    [ArgStr (if negb (match_ =? 0) then "match" else "do not match")].

(** Lines 122-125. *)
Definition free_vectors (bufs : buffers) : M unit :=
  free (vector_a bufs);;
  free (vector_b bufs);;
  free (hw_result bufs);;
  free (sw_result bufs).

Definition run_performance_test (vector_size : Z) : M unit :=
  bufs ← allocate_vectors vector_size;
  init_vectors bufs vector_size;;
  hw_time ← time_hardware bufs vector_size;
  sw_time ← time_software bufs vector_size;
  match_ ← verify_results bufs vector_size;
  print_results vector_size hw_time sw_time match_;;
  free_vectors bufs.

(** ** The scaling report (lines 128-151) *)

(** Line 143: [size / (1.0 + 8.0 / size)], [size] converted to [double]. *)
Definition theoretical_speedup (size : Z) : float :=
  (double_of_Z size / (1 + 8 / double_of_Z size))%float.

(** Lines 139-145: [for (int size = 8; size <= 4096; size *= 2)], entered
    with the current [size]. *)
Definition scaling_loop (fuel : nat) (size : Z) : M unit :=
  for_loop fuel (fun size => size <=? 4096) (fun size => int_mul size 2)
    (fun size =>
       printf "| %-11d | %-9.2f |\n"
         [ArgInt size; ArgDouble (theoretical_speedup size)])
    size.

(** A size that starts at 8 and doubles is above 4096 well within 4096
    rounds ([scaling_loop_rounds] below: 10 are used). *)
Definition scaling_fuel : nat := 4096.

Definition show_scaling_performance : M unit :=
  printf "\nScaling Performance (simulated):\n" [];;
  printf "----------------------------\n" [];;
  printf "| Vector Size | Speedup   |\n" [];;
  printf "----------------------------\n" [];;
  scaling_loop scaling_fuel 8;;
  printf "----------------------------\n" [];;
  printf "\nNote: This shows theoretical scaling based on\n" [];;
  printf "parallelism. Actual hardware would have additional\n" [];;
  printf "factors like memory bandwidth and transfer overhead.\n" [].

(** ** The entry point (lines 153-170); the value is the exit status. *)

Definition main : M Z :=
  printf "Vector Multiplication Performance Test\n" [];;
  printf "======================================\n\n" [];;
  printf "Running tests with standard vector size (%d)...\n" [ArgInt VECTOR_SIZE];;
  run_performance_test VECTOR_SIZE;;
  printf "Running tests with large vector size (%d)...\n" [ArgInt LARGE_VECTOR_SIZE];;
  run_performance_test LARGE_VECTOR_SIZE;;
  show_scaling_performance;;
  mret 0.

(** ** The driver and its kernels with what they compute as a parameter

    A mismatch between the two result vectors needs a kernel that gets a
    cell wrong, which the two kernels of the source never do.  The
    definitions below are the text of the kernels with the product
    [vector_a[i] * vector_b[i]] replaced by a parameter [cell i x y], and
    the text of [run_performance_test] and of [main] with the two kernels
    called replaced by parameters.  Taken at the product and at the two
    kernels they are the definitions above ([hardware_variant_product],
    [software_variant_product], [run_performance_test_with_kernels] and
    [main_with_kernels] below). *)

Definition kernel : Type := ptr -> ptr -> ptr -> Z -> M unit.

(** Lines 50-53 (and 28-31, 38-41), storing [cell i x y] for the product. *)
Definition multiply_loop (cell : Z -> Z -> Z -> Z) : kernel :=
  fun vector_a vector_b result size =>
    for_range 0 size (fun i =>
      x ← load vector_a i;
      y ← load vector_b i;
      store result i (to_data (cell i x y))).

(** Lines 18-43. *)
Definition hardware_variant (cell : Z -> Z -> Z -> Z) : kernel :=
  fun vector_a vector_b result size =>
    if negb (SIMULATION_MODE =? 0) then
      usleep 1;;
      multiply_loop cell vector_a vector_b result size
    else
      multiply_loop cell vector_a vector_b result size.

(** Lines 46-54. *)
Definition software_variant (cell : Z -> Z -> Z -> Z) : kernel :=
  multiply_loop cell.

(** Lines 83-90 and 93-100. *)
Definition time_kernel (multiply : kernel) (vector_a vector_b result : ptr)
    (vector_size : Z) : M float :=
  start ← get_time_sec;
  for_range 0 NUM_TESTS (fun _ =>
    multiply vector_a vector_b result vector_size);;
  end_ ← get_time_sec;
  mret (end_ - start)%float.

(** Lines 65-126. *)
Definition run_performance_test_with (hw_multiply sw_multiply : kernel)
    (vector_size : Z) : M unit :=
  bufs ← allocate_vectors vector_size;
  init_vectors bufs vector_size;;
  hw_time ← time_kernel hw_multiply
               (vector_a bufs) (vector_b bufs) (hw_result bufs) vector_size;
  sw_time ← time_kernel sw_multiply
               (vector_a bufs) (vector_b bufs) (sw_result bufs) vector_size;
  match_ ← verify_results bufs vector_size;
  print_results vector_size hw_time sw_time match_;;
  free_vectors bufs.

(** Lines 153-170. *)
Definition main_with (hw_multiply sw_multiply : kernel) : M Z :=
  printf "Vector Multiplication Performance Test\n" [];;
  printf "======================================\n\n" [];;
  printf "Running tests with standard vector size (%d)...\n" [ArgInt VECTOR_SIZE];;
  run_performance_test_with hw_multiply sw_multiply VECTOR_SIZE;;
  printf "Running tests with large vector size (%d)...\n" [ArgInt LARGE_VECTOR_SIZE];;
  run_performance_test_with hw_multiply sw_multiply LARGE_VECTOR_SIZE;;
  show_scaling_performance;;
  mret 0.

(** * Vocabulary of the statements *)

(** The outcome [o] with the sleep counter set to [s]: two outcomes equal
    under [with_slept 0] differ in the sleep counter at most. *)
Definition with_slept {A} (s : Z) (o : outcome A) : outcome A :=
  match o with
  | Ok a w => Ok a (set_slept s w)
  | Fault f => Fault f
  end.

(** [m] neither reads nor changes the sleep counter. *)
Definition sleepless {A} (m : M A) : Prop :=
  forall s w, m (set_slept s w) = with_slept s (m w).

(** What the kernels store for the inputs [xs] and [ys], cell by cell. *)
Definition products (xs ys : list Z) : list Z :=
  zip_with (fun x y => to_data (int_mul x y)) xs ys.

(** The result block once its first [k] cells are written. *)
Definition filled (vals : list Z) (cells : list (option Z)) (k : Z)
    : list (option Z) :=
  (Some <$> take (Z.to_nat k) vals) ++ drop (Z.to_nat k) cells.

(** A run of [m] that returns has changed no block but the one [r] points
    to. *)
Definition writes_only {A} (r : ptr) (m : M A) : Prop :=
  forall w x w', m w = Ok x w' ->
    forall p, r <> Ptr p -> heap w' !! p = heap w !! p.

(** What the driver stores in the input vectors, as the source computes it. *)
Definition input_a (i : Z) : Z := to_data (int_add (int_rem i 100) 1).

Definition input_b (vector_size i : Z) : Z :=
  to_data (int_add (int_rem (int_sub vector_size i) 100) 1).

Definition inputs_a (vector_size : Z) : list Z :=
  input_a <$> seqZ 0 vector_size.

Definition inputs_b (vector_size : Z) : list Z :=
  input_b vector_size <$> seqZ 0 vector_size.

(** The world [w] after the [printf] calls [es]. *)
Definition emit (es : list event) (w : world) : world :=
  set_out (out w ++ es) w.

(** The reading of the clock taken as the [k]-th from now. *)
Definition reading (w : world) (k : nat) : float :=
  let ts := clock w (ticks w + k)%nat in
  (double_of_Z (tv_sec ts) + double_of_Z (tv_nsec ts) / 1000000000)%float.

(** Line 109. *)
Definition mismatch_line (i h s : Z) : event :=
  Printf "Mismatch at index %d: HW=%d, SW=%d\n" [ArgInt i; ArgInt h; ArgInt s].

(** What lines 115-119 print. *)
Definition report (vector_size : Z) (hw_time sw_time : float) (match_ : Z)
    : list event :=
  [ Printf "Vector Size: %d\n" [ArgInt vector_size];
    Printf "Hardware time: %.6f seconds\n" [ArgDouble hw_time];
    Printf "Software time: %.6f seconds\n" [ArgDouble sw_time];
    Printf "Speedup: %.2f x\n" [ArgDouble (sw_time / hw_time)%float];
    Printf "Results %s\n\n"
      [ArgStr (if negb (match_ =? 0) then "match" else "do not match")] ].

(** The sizes of the scaling table. *)
Definition scaling_sizes : list Z :=
  [8; 16; 32; 64; 128; 256; 512; 1024; 2048; 4096].

(** Line 144. *)
Definition table_row (size : Z) : event :=
  Printf "| %-11d | %-9.2f |\n" [ArgInt size; ArgDouble (theoretical_speedup size)].

(** What [show_scaling_performance] prints. *)
Definition scaling_report : list event :=
  [ Printf "\nScaling Performance (simulated):\n" [];
    Printf "----------------------------\n" [];
    Printf "| Vector Size | Speedup   |\n" [];
    Printf "----------------------------\n" [] ]
  ++ (table_row <$> scaling_sizes)
  ++ [ Printf "----------------------------\n" [];
       Printf "\nNote: This shows theoretical scaling based on\n" [];
       Printf "parallelism. Actual hardware would have additional\n" [];
       Printf "factors like memory bandwidth and transfer overhead.\n" [] ].

(** Everything [main] prints, given the eight readings of the clock. *)
Definition main_output (r : nat -> float) : list event :=
  [ Printf "Vector Multiplication Performance Test\n" [];
    Printf "======================================\n\n" [];
    Printf "Running tests with standard vector size (%d)...\n" [ArgInt VECTOR_SIZE] ]
  ++ report VECTOR_SIZE (r 1%nat - r 0%nat) (r 3%nat - r 2%nat) 1
  ++ [ Printf "Running tests with large vector size (%d)...\n"
         [ArgInt LARGE_VECTOR_SIZE] ]
  ++ report LARGE_VECTOR_SIZE (r 5%nat - r 4%nat) (r 7%nat - r 6%nat) 1
  ++ scaling_report.

(** The world once the kernel loop has written the cells below [k] of the
    block [r]. *)
Definition multiplied (r : block) (xs ys : list Z) (cells : list (option Z))
    (w : world) (k : Z) : world :=
  set_heap (<[r := filled (products xs ys) cells k]> (heap w)) w.

(** Both cells at [i] are written and hold [h] and [s]. *)
Definition cells_at (ch cs : list (option Z)) (i h s : Z) : Prop :=
  ch !! Z.to_nat i = Some (Some h) /\ cs !! Z.to_nat i = Some (Some s).

(** The memory [h0] with the four blocks of one benchmark. *)
Definition four (a b hw sw : block) (h0 : gmap block (list (option Z)))
    (A B H S : list (option Z)) : gmap block (list (option Z)) :=
  <[a := A]> (<[b := B]> (<[hw := H]> (<[sw := S]> h0))).

(** The four vectors of a benchmark, in the order of their allocation. *)
Definition bufs (a b hw sw : block) : buffers :=
  Buffers (Ptr a) (Ptr b) (Ptr hw) (Ptr sw).

(** [run_performance_test] in three parts ([run_performance_test_phases]):
    lines 67-80, the allocation of the vectors and the filling of the
    inputs; the two timed loops; and lines 103-125, the comparison, the
    report and the release of the vectors. *)
Definition setup_vectors (vector_size : Z) : M buffers :=
  bufs ← allocate_vectors vector_size;
  init_vectors bufs vector_size;;
  mret bufs.

Definition finish_benchmark (bufs : buffers) (vector_size : Z)
    (hw_time sw_time : float) : M unit :=
  match_ ← verify_results bufs vector_size;
  print_results vector_size hw_time sw_time match_;;
  free_vectors bufs.

(** The world after one benchmark at the size [n]. *)
Definition benchmarked (n : Z) (w : world) : world :=
  set_ticks (ticks w + 4)
    (set_slept (slept w + NUM_TESTS)
       (emit (report n (reading w 1 - reading w 0)
                       (reading w 3 - reading w 2) 1) w)).

(** The speedup of the specification, [size / (1 + 8 / size)], over the
    rationals. *)
Definition speedup_formula (size : Z) : Q :=
  (inject_Z size / (1 + 8 / inject_Z size))%Q.

(** [x] is a finite double whose value is within [eps] of [q]. *)
Definition double_near (x : float) (q eps : Q) : Prop :=
  exists v, Q_of_double x = Some v /\ (Qabs (v - q) <= eps)%Q.

(** A small world to try the statements on: two input blocks whose first
    product does not fit 16 bits, and an unwritten result block. *)
Definition sample_world : world :=
  World (<[3%positive := [None; None]]>
           (<[2%positive := [Some 300; Some 3]]>
              (<[1%positive := [Some 300; Some 2]]> ∅)))
        (fun k => Timespec (Z.of_nat k) 0) 0 0 [].

(** Two result blocks that differ at index 1; the first has no cell at
    index 2 and the second an unwritten one. *)
Definition mismatch_world : world :=
  World (<[2%positive := [Some 5; Some 8; None]]>
           (<[1%positive := [Some 5; Some 7]]> ∅))
        (fun k => Timespec (Z.of_nat k) 0) 0 0 [].

(** The four vectors of a benchmark whose results differ at index 1. *)
Definition faulty_world : world :=
  World (<[4%positive := [Some 3; Some 9]]>
           (<[3%positive := [Some 3; Some 8]]>
              (<[2%positive := [Some 3; Some 4]]>
                 (<[1%positive := [Some 1; Some 2]]> ∅))))
        (fun k => Timespec (Z.of_nat k) 0) 0 0 [].

(** The products taken over the integers and reduced modulo 65536, cell
    by cell. *)
Definition wrapped_products (xs ys : list Z) : list Z :=
  zip_with (fun x y => (x * y) mod 65536) xs ys.

(** A run of [m] that returns has changed nothing but the memory: it has
    printed nothing, read no clock and not slept. *)
Definition memory_only {A} (m : M A) : Prop :=
  forall w x w', m w = Ok x w' -> w' = set_heap (heap w') w.

(** The cells at [i] of the two result vectors are written and hold the
    same value. *)
Definition results_agree_at (bs : buffers) (w : world) (i : Z) : Prop :=
  exists v, load (hw_result bs) i w = Ok v w /\ load (sw_result bs) i w = Ok v w.

(** The product as the kernels of the source compute it. *)
Definition product_cell (i x y : Z) : Z := int_mul x y.

(** What a kernel that computes [cell] stores for the inputs [xs] and
    [ys], cell by cell. *)
Definition variant_cells (cell : Z -> Z -> Z -> Z) (xs ys : list Z) : list Z :=
  imap (fun i xy => to_data (cell (Z.of_nat i) xy.1 xy.2)) (zip xs ys).

(** What the comparison of the result vectors [hs] and [ss] leaves: the
    flag [match_] and the [lines] printed.  Equal vectors give 1 and no
    line; otherwise the flag is 0 and the one line names the first index
    [k] where they differ, with the values there. *)
Definition verdict (hs ss : list Z) (match_ : Z) (lines : list event) : Prop :=
  (match_ = 1 /\ lines = [] /\ hs = ss)
  \/ (match_ = 0
      /\ exists k h s,
           lines = [mismatch_line k h s]
           /\ 0 <= k
           /\ hs !! Z.to_nat k = Some h /\ ss !! Z.to_nat k = Some s
           /\ h <> s
           /\ take (Z.to_nat k) hs = take (Z.to_nat k) ss).

(** Everything [main] prints, given the eight readings of the clock, the
    flags of the two comparisons and the mismatch lines they printed. *)
Definition main_output_with (r : nat -> float)
    (match8 : Z) (lines8 : list event) (match1024 : Z) (lines1024 : list event)
    : list event :=
  [ Printf "Vector Multiplication Performance Test\n" [];
    Printf "======================================\n\n" [];
    Printf "Running tests with standard vector size (%d)...\n" [ArgInt VECTOR_SIZE] ]
  ++ lines8
  ++ report VECTOR_SIZE (r 1%nat - r 0%nat) (r 3%nat - r 2%nat) match8
  ++ [ Printf "Running tests with large vector size (%d)...\n"
         [ArgInt LARGE_VECTOR_SIZE] ]
  ++ lines1024
  ++ report LARGE_VECTOR_SIZE (r 5%nat - r 4%nat) (r 7%nat - r 6%nat) match1024
  ++ scaling_report.

(** The world after one benchmark at the size [n] whose comparison left
    the flag [match_] and printed [lines]. *)
Definition benchmarked_with (match_ : Z) (lines : list event) (n : Z)
    (w : world) : world :=
  set_ticks (ticks w + 4)
    (set_slept (slept w + NUM_TESTS)
       (emit (lines ++ report n (reading w 1 - reading w 0)
                                (reading w 3 - reading w 2) match_) w)).

(** Lines 72-125 of [run_performance_test], what follows the four
    allocations, for the kernels [hw_multiply] and [sw_multiply]. *)
Definition benchmark_on_with (hw_multiply sw_multiply : kernel)
    (bufs : buffers) (vector_size : Z) : M unit :=
  init_vectors bufs vector_size;;
  hw_time ← time_kernel hw_multiply
               (vector_a bufs) (vector_b bufs) (hw_result bufs) vector_size;
  sw_time ← time_kernel sw_multiply
               (vector_a bufs) (vector_b bufs) (sw_result bufs) vector_size;
  match_ ← verify_results bufs vector_size;
  print_results vector_size hw_time sw_time match_;;
  free_vectors bufs.

(** Lines 72-125 of [run_performance_test] as the source has them. *)
Definition benchmark_on (bufs : buffers) (vector_size : Z) : M unit :=
  init_vectors bufs vector_size;;
  hw_time ← time_hardware bufs vector_size;
  sw_time ← time_software bufs vector_size;
  match_ ← verify_results bufs vector_size;
  print_results vector_size hw_time sw_time match_;;
  free_vectors bufs.

(** The memory without the four vectors of a benchmark. *)
Definition released (a b hw sw : block) (h : gmap block (list (option Z)))
    : gmap block (list (option Z)) :=
  delete sw (delete hw (delete b (delete a h))).

(** A kernel variant that gets the cell at index 3 wrong: it stores 0. *)
Definition faulty_cell (i x y : Z) : Z := if i =? 3 then 0 else int_mul x y.

(** * Properties *)

(** ** Machine integers *)

Lemma wrap_int_small z : INT_MIN <= z <= INT_MAX -> wrap_int z = z.
Proof.
  unfold wrap_int, INT_MIN, INT_MAX. intros H.
  rewrite Z.mod_small by lia. lia.
Qed.

(** The low 16 bits of a product do not depend on the wrap-around of the
    32-bit multiplication that computed it. *)
Lemma to_data_wrap_int z : to_data (wrap_int z) = z mod 65536.
Proof.
  unfold to_data, wrap_int.
  change (2 ^ 16) with 65536. change (2 ^ 31) with (32768 * 65536).
  change (2 ^ 32) with (65536 * 65536).
  rewrite (Z.mod_eq (z + 32768 * 65536) (65536 * 65536)) by lia.
  replace (z + 32768 * 65536
           - 65536 * 65536 * ((z + 32768 * 65536) / (65536 * 65536))
           - 32768 * 65536)
    with (z + (- (65536 * ((z + 32768 * 65536) / (65536 * 65536)))) * 65536)
    by lia.
  apply Z_mod_plus_full.
Qed.

Lemma to_data_int_mul x y : to_data (int_mul x y) = (x * y) mod 65536.
Proof. apply to_data_wrap_int. Qed.

Lemma to_data_small z : 0 <= z < 65536 -> to_data z = z.
Proof. intros H. unfold to_data. apply Z.mod_small. simpl. lia. Qed.

(** ** The monad *)

Lemma bind_run {A B} (m : M A) (k : A -> M B) w :
  (m ≫= k) w = match m w with Ok a w' => k a w' | Fault f => Fault f end.
Proof. reflexivity. Qed.

Lemma bind_ok {A B} (m : M A) (k : A -> M B) w a w' :
  m w = Ok a w' -> (m ≫= k) w = k a w'.
Proof. intros H. rewrite bind_run, H. reflexivity. Qed.

Lemma set_heap_id w : set_heap (heap w) w = w.
Proof. destruct w. reflexivity. Qed.

(** ** Memory *)

Lemma load_ok b i w cells v :
  heap w !! b = Some cells -> 0 <= i -> cells !! Z.to_nat i = Some (Some v) ->
  load (Ptr b) i w = Ok v w.
Proof.
  intros Hb Hi Hc. unfold load. rewrite Hb.
  destruct (Z.ltb_spec i 0); [lia|]. rewrite Hc. reflexivity.
Qed.

Lemma store_ok b i v w cells :
  heap w !! b = Some cells -> 0 <= i < Z.of_nat (length cells) ->
  store (Ptr b) i v w
  = Ok tt (set_heap (<[b := <[Z.to_nat i := Some v]> cells]> (heap w)) w).
Proof.
  intros Hb Hi. unfold store. rewrite Hb.
  destruct (Z.ltb_spec i 0); [lia|].
  destruct (Z.leb_spec (Z.of_nat (length cells)) i); [lia|]. reflexivity.
Qed.

Lemma free_ok b cells w :
  heap w !! b = Some cells -> free (Ptr b) w = Ok tt (set_heap (delete b (heap w)) w).
Proof. intros Hb. unfold free. rewrite Hb. reflexivity. Qed.

(** Writing the next cell of a block that is being filled from the left. *)
Lemma fill_step (vals : list Z) (cells : list (option Z)) (k : nat) v :
  vals !! k = Some v -> (k < length cells)%nat ->
  <[k := Some v]> ((Some <$> take k vals) ++ drop k cells)
  = (Some <$> take (S k) vals) ++ drop (S k) cells.
Proof.
  intros Hv Hk.
  assert (Hlen : length (Some <$> take k vals) = k).
  { rewrite length_fmap, length_take. apply lookup_lt_Some in Hv. lia. }
  destruct (lookup_lt_is_Some_2 cells k Hk) as [c Hc].
  rewrite (drop_S cells c k Hc).
  rewrite (take_S_r vals k v Hv), fmap_app, <- app_assoc. simpl.
  rewrite insert_app_r_alt by lia.
  rewrite Hlen, Nat.sub_diag. reflexivity.
Qed.

Lemma fill_length (vals : list Z) (cells : list (option Z)) (k : nat) :
  (k <= length vals)%nat -> (k <= length cells)%nat ->
  length ((Some <$> take k vals) ++ drop k cells) = length cells.
Proof.
  intros. rewrite length_app, length_fmap, length_take, length_drop. lia.
Qed.

(** ** Loops *)

Lemma for_loop_unfold fuel test step body i w :
  for_loop fuel test step body i w
  = if test i then
      match fuel with
      | O => Fault OutOfFuel
      | S fuel' => (body i;; for_loop fuel' test step body (step i)) w
      end
    else Ok tt w.
Proof. destruct fuel; cbn [for_loop]; destruct (test i); reflexivity. Qed.

Lemma for_loop_break_unfold {S} fuel test step
    (body : Z -> S -> M (control S)) i s w :
  for_loop_break fuel test step body i s w
  = if test i then
      match fuel with
      | O => Fault OutOfFuel
      | S fuel' =>
          (c ← body i s;
           match c with
           | Continue s' => for_loop_break fuel' test step body (step i) s'
           | Break s' => mret s'
           end) w
      end
    else Ok s w.
Proof. destruct fuel; cbn [for_loop_break]; destruct (test i); reflexivity. Qed.

(** While [i] is below an [int], [i++] does not wrap. *)
Lemma int_succ i hi : INT_MIN <= i < hi -> hi <= INT_MAX -> int_add i 1 = i + 1.
Proof.
  intros Hi Hmax. unfold int_add. apply wrap_int_small.
  unfold INT_MIN, INT_MAX in *. lia.
Qed.

Lemma for_range_empty lo hi body w : hi <= lo -> for_range lo hi body w = Ok tt w.
Proof.
  intros H. unfold for_range. rewrite for_loop_unfold.
  destruct (Z.ltb_spec lo hi); [lia | reflexivity].
Qed.

(** Total correctness of a counted loop from an invariant: with [k] rounds
    left to reach [hi], the fuel [k] is enough. *)
Lemma for_loop_count_inv (I : Z -> world -> Prop) body hi (k : nat) :
  hi <= INT_MAX ->
  forall i w,
    INT_MIN <= i -> i + Z.of_nat k = hi ->
    (forall j w, i <= j < hi -> I j w ->
                 exists w', body j w = Ok tt w' /\ I (j + 1) w') ->
    I i w ->
    exists w', for_loop k (fun i => i <? hi) (fun i => int_add i 1) body i w
               = Ok tt w'
               /\ I hi w'.
Proof.
  intros Hmax. induction k as [|k IH]; intros i w Hmin Hk Hbody H0;
    rewrite for_loop_unfold.
  - destruct (Z.ltb_spec i hi); [lia|].
    exists w. split; [reflexivity|]. replace hi with i by lia. exact H0.
  - destruct (Z.ltb_spec i hi); [|lia].
    destruct (Hbody i w ltac:(lia) H0) as (w1 & Hb & H1).
    rewrite (bind_ok _ _ _ _ _ Hb), (int_succ i hi) by lia.
    apply IH; [lia | lia | | exact H1].
    intros j w' Hj. apply Hbody. lia.
Qed.

Lemma for_range_inv (I : Z -> world -> Prop) body lo hi w :
  INT_MIN <= lo -> lo <= hi -> hi <= INT_MAX ->
  (forall i w, lo <= i < hi -> I i w ->
               exists w', body i w = Ok tt w' /\ I (i + 1) w') ->
  I lo w ->
  exists w', for_range lo hi body w = Ok tt w' /\ I hi w'.
Proof.
  intros Hmin Hle Hmax Hbody H0. unfold for_range.
  apply (for_loop_count_inv I body hi (Z.to_nat (hi - lo)) Hmax lo w);
    [exact Hmin | lia | exact Hbody | exact H0].
Qed.

(** ** Computations that neither read nor change the sleep counter *)

Lemma sleepless_ret {A} (a : A) : sleepless (mret a : M A).
Proof. intros s w. reflexivity. Qed.

Lemma sleepless_bind {A B} (m : M A) (k : A -> M B) :
  sleepless m -> (forall a, sleepless (k a)) -> sleepless (m ≫= k).
Proof.
  intros Hm Hk s w. rewrite !bind_run, Hm.
  destruct (m w) as [x w'|f]; simpl; [apply Hk | reflexivity].
Qed.

Lemma sleepless_load p i : sleepless (load p i).
Proof.
  intros s w. unfold load. destruct p as [|b]; [reflexivity|]. simpl.
  destruct (heap w !! b) as [cells|]; [|reflexivity].
  destruct (i <? 0); [reflexivity|].
  destruct (cells !! Z.to_nat i) as [[v|]|]; reflexivity.
Qed.

Lemma sleepless_store p i v : sleepless (store p i v).
Proof.
  intros s w. unfold store. destruct p as [|b]; [reflexivity|]. simpl.
  destruct (heap w !! b) as [cells|]; [|reflexivity].
  destruct (_ || _); reflexivity.
Qed.

Lemma sleepless_printf fmt args : sleepless (printf fmt args).
Proof. intros s w. reflexivity. Qed.

Lemma sleepless_for_loop fuel test step body :
  (forall i, sleepless (body i)) ->
  forall i, sleepless (for_loop fuel test step body i).
Proof.
  intros Hb. induction fuel as [|fuel IH]; intros i s w;
    rewrite !for_loop_unfold; destruct (test i); try reflexivity.
  apply (sleepless_bind (body i) (fun _ => for_loop fuel test step body (step i)));
    [apply Hb | intros _; apply IH].
Qed.

Lemma sleepless_software_vector_multiply a b r n :
  sleepless (software_vector_multiply a b r n).
Proof.
  apply sleepless_for_loop. intros i.
  apply sleepless_bind; [apply sleepless_load | intros x].
  apply sleepless_bind; [apply sleepless_load | intros y].
  apply sleepless_store.
Qed.

(** The hardware kernel is the software kernel after the sleep, whatever
    the flag and whatever the arguments. *)
Lemma hardware_vector_multiply_when_unfold mode a b r n w :
  hardware_vector_multiply_when mode a b r n w
  = if negb (mode =? 0)
    then with_slept (slept w + 1) (software_vector_multiply a b r n w)
    else software_vector_multiply a b r n w.
Proof.
  unfold hardware_vector_multiply_when. destruct (negb (mode =? 0)).
  - rewrite bind_run. cbn [usleep].
    apply (sleepless_software_vector_multiply a b r n).
  - reflexivity.
Qed.

(** ** The multiply kernels *)

Lemma filled_0 vals cells : filled vals cells 0 = cells.
Proof. reflexivity. Qed.

Lemma filled_all vals cells k :
  Z.of_nat (length vals) <= k -> length cells = length vals ->
  filled vals cells k = Some <$> vals.
Proof.
  intros Hk Hl. unfold filled.
  rewrite take_ge, drop_ge by lia. apply app_nil_r.
Qed.

Lemma products_length xs ys :
  length (products xs ys) = Nat.min (length xs) (length ys).
Proof. apply length_zip_with. Qed.

Lemma products_lookup xs ys (k : nat) x y :
  xs !! k = Some x -> ys !! k = Some y ->
  products xs ys !! k = Some (to_data (int_mul x y)).
Proof.
  intros Hx Hy. unfold products. rewrite lookup_zip_with, Hx. simpl.
  rewrite Hy. reflexivity.
Qed.

Section Kernel.
Variables (a b r : block) (xs ys : list Z) (cells : list (option Z)).
Variables (n : Z) (w : world).
Hypothesis Ha : heap w !! a = Some (Some <$> xs).
Hypothesis Hb : heap w !! b = Some (Some <$> ys).
Hypothesis Hr : heap w !! r = Some cells.
Hypothesis Hra : r <> a.
Hypothesis Hrb : r <> b.
Hypothesis Hn : 0 <= n.
Hypothesis Hmax : n <= INT_MAX.
Hypothesis Hxs : n <= Z.of_nat (length xs).
Hypothesis Hys : n <= Z.of_nat (length ys).
Hypothesis Hcells : n <= Z.of_nat (length cells).

Local Abbreviation mult := (multiplied r xs ys cells w).

Lemma multiply_step i :
  0 <= i < n ->
  (x ← load (Ptr a) i; y ← load (Ptr b) i;
   store (Ptr r) i (to_data (int_mul x y))) (mult i)
  = Ok tt (mult (i + 1)).
Proof.
  intros Hi.
  destruct (lookup_lt_is_Some_2 xs (Z.to_nat i) ltac:(lia)) as [x Hx].
  destruct (lookup_lt_is_Some_2 ys (Z.to_nat i) ltac:(lia)) as [y Hy].
  assert (Hp := products_lookup _ _ _ _ _ Hx Hy).
  rewrite (bind_ok _ _ _ x (mult i)).
  2:{ eapply load_ok; [|lia|].
      - unfold multiplied; simpl. rewrite lookup_insert_ne by done. exact Ha.
      - rewrite list_lookup_fmap, Hx. reflexivity. }
  rewrite (bind_ok _ _ _ y (mult i)).
  2:{ eapply load_ok; [|lia|].
      - unfold multiplied; simpl. rewrite lookup_insert_ne by done. exact Hb.
      - rewrite list_lookup_fmap, Hy. reflexivity. }
  erewrite store_ok.
  2:{ unfold multiplied; simpl. apply lookup_insert_eq. }
  2:{ unfold filled. rewrite fill_length; [lia| |lia].
      rewrite products_length. lia. }
  unfold multiplied, filled; simpl. f_equal. unfold set_heap; simpl. f_equal.
  rewrite insert_insert_eq. f_equal.
  replace (Z.to_nat (i + 1)) with (S (Z.to_nat i)) by lia.
  apply fill_step; [exact Hp | lia].
Qed.

Lemma software_vector_multiply_run :
  software_vector_multiply (Ptr a) (Ptr b) (Ptr r) n w = Ok tt (mult n).
Proof.
  unfold software_vector_multiply.
  edestruct (for_range_inv (fun i w' => w' = mult i))
    with (lo := 0) (hi := n) (w := w) as (w' & Hrun & ->);
    [unfold INT_MIN; lia | exact Hn | exact Hmax | | | exact Hrun].
  - intros i w1 Hi ->. eexists. split; [apply multiply_step; lia | reflexivity].
  - unfold multiplied. rewrite filled_0, insert_id by exact Hr.
    symmetry. apply set_heap_id.
Qed.

Lemma hardware_vector_multiply_when_run mode :
  hardware_vector_multiply_when mode (Ptr a) (Ptr b) (Ptr r) n w
  = Ok tt (if negb (mode =? 0)
           then set_slept (slept w + 1) (mult n)
           else mult n).
Proof.
  rewrite hardware_vector_multiply_when_unfold, software_vector_multiply_run.
  destruct (negb (mode =? 0)); reflexivity.
Qed.
End Kernel.

(** *** Only the result block is written *)

Lemma writes_only_ret {A} r (x : A) : writes_only r (mret x : M A).
Proof. intros w y w' [= _ <-] p _. reflexivity. Qed.

Lemma writes_only_bind {A B} r (m : M A) (k : A -> M B) :
  writes_only r m -> (forall x, writes_only r (k x)) -> writes_only r (m ≫= k).
Proof.
  intros Hm Hk w y w'. rewrite bind_run.
  destruct (m w) as [x w1|f] eqn:E; [|discriminate].
  intros Hrun p Hp. rewrite (Hk x w1 y w' Hrun p Hp). exact (Hm w x w1 E p Hp).
Qed.

Lemma writes_only_load r p i : writes_only r (load p i).
Proof.
  intros w x w'. unfold load. destruct p as [|b]; [discriminate|].
  destruct (heap w !! b) as [cells|]; [|discriminate].
  destruct (i <? 0); [discriminate|].
  destruct (cells !! Z.to_nat i) as [[v|]|]; [|discriminate..].
  intros [= _ <-] q _. reflexivity.
Qed.

Lemma writes_only_store r i v : writes_only r (store r i v).
Proof.
  intros w x w'. unfold store. destruct r as [|b]; [discriminate|].
  destruct (heap w !! b) as [cells|]; [|discriminate].
  destruct (_ || _); [discriminate|].
  intros E q Hq. inversion E; subst w'. simpl. apply lookup_insert_ne. congruence.
Qed.

Lemma writes_only_for_loop r fuel test step body :
  (forall i, writes_only r (body i)) ->
  forall i, writes_only r (for_loop fuel test step body i).
Proof.
  intros Hb. induction fuel as [|fuel IH]; intros i w x w';
    rewrite for_loop_unfold; destruct (test i);
    try discriminate; try (intros E p _; inversion E; reflexivity).
  apply (writes_only_bind r (body i)
           (fun _ => for_loop fuel test step body (step i)));
    [apply Hb | intros _; apply IH].
Qed.

Lemma writes_only_software_vector_multiply a b r n :
  writes_only r (software_vector_multiply a b r n).
Proof.
  apply writes_only_for_loop. intros i.
  apply writes_only_bind; [apply writes_only_load | intros x].
  apply writes_only_bind; [apply writes_only_load | intros y].
  apply writes_only_store.
Qed.

Lemma writes_only_hardware_vector_multiply_when mode a b r n :
  writes_only r (hardware_vector_multiply_when mode a b r n).
Proof.
  intros w x w'. rewrite hardware_vector_multiply_when_unfold.
  destruct (negb (mode =? 0)).
  - destruct (software_vector_multiply a b r n w) as [y w1|f] eqn:E;
      [|discriminate].
    intros [= _ <-] p Hp. simpl.
    exact (writes_only_software_vector_multiply a b r n w y w1 E p Hp).
  - apply writes_only_software_vector_multiply.
Qed.

(** ** The benchmark driver *)

Lemma malloc_data_run n w :
  0 <= n <= INT_MAX ->
  malloc_data n w
  = Ok (Ptr (fresh (dom (heap w))))
       (set_heap (<[fresh (dom (heap w)) := replicate (Z.to_nat n) None]> (heap w)) w).
Proof.
  unfold INT_MAX. intros Hn. unfold malloc_data, to_size_t, sizeof_data_t, PTRDIFF_MAX.
  rewrite (Z.mod_small n) by lia. rewrite (Z.mod_small (2 * n)) by lia.
  destruct (Z.ltb_spec (2 ^ 63 - 1) (2 * n)); [lia|].
  replace (2 * n / 2) with n by (rewrite Z.mul_comm, Z.div_mul; lia).
  reflexivity.
Qed.

Lemma inputs_a_length n : length (inputs_a n) = Z.to_nat n.
Proof. unfold inputs_a. rewrite length_fmap. apply length_seqZ. Qed.

Lemma inputs_b_length n : length (inputs_b n) = Z.to_nat n.
Proof. unfold inputs_b. rewrite length_fmap. apply length_seqZ. Qed.

Lemma inputs_a_lookup n i :
  0 <= i < n -> inputs_a n !! Z.to_nat i = Some (input_a i).
Proof.
  intros Hi. unfold inputs_a. rewrite list_lookup_fmap, lookup_seqZ_lt by lia.
  simpl. do 2 f_equal. lia.
Qed.

Lemma inputs_b_lookup n i :
  0 <= i < n -> inputs_b n !! Z.to_nat i = Some (input_b n i).
Proof.
  intros Hi. unfold inputs_b. rewrite list_lookup_fmap, lookup_seqZ_lt by lia.
  simpl. do 2 f_equal. lia.
Qed.

(** The generators, in the words of the specification. *)
Lemma input_a_value i : 0 <= i <= INT_MAX -> input_a i = i mod 100 + 1.
Proof.
  unfold INT_MAX. intros Hi. unfold input_a, int_add, int_rem.
  rewrite Z.rem_mod_nonneg by lia.
  assert (0 <= i mod 100 < 100) by (apply Z.mod_pos_bound; lia).
  rewrite (wrap_int_small (i mod 100)) by (unfold INT_MIN, INT_MAX; lia).
  rewrite wrap_int_small by (unfold INT_MIN, INT_MAX; lia).
  apply to_data_small. lia.
Qed.

Lemma input_b_value n i :
  0 <= i < n -> n <= INT_MAX -> input_b n i = (n - i) mod 100 + 1.
Proof.
  unfold INT_MAX. intros Hi Hn. unfold input_b, int_add, int_rem, int_sub.
  rewrite (wrap_int_small (n - i)) by (unfold INT_MIN, INT_MAX; lia).
  rewrite Z.rem_mod_nonneg by lia.
  assert (0 <= (n - i) mod 100 < 100) by (apply Z.mod_pos_bound; lia).
  rewrite (wrap_int_small ((n - i) mod 100)) by (unfold INT_MIN, INT_MAX; lia).
  rewrite wrap_int_small by (unfold INT_MIN, INT_MAX; lia).
  apply to_data_small. lia.
Qed.

Lemma printf_run fmt args w : printf fmt args w = Ok tt (emit [Printf fmt args] w).
Proof. reflexivity. Qed.

Lemma emit_emit e1 e2 w : emit e2 (emit e1 w) = emit (e1 ++ e2) w.
Proof. unfold emit, set_out. simpl. rewrite app_assoc. reflexivity. Qed.

Lemma emit_nil w : emit [] w = w.
Proof. destruct w. unfold emit, set_out. simpl. rewrite app_nil_r. reflexivity. Qed.

Lemma get_time_sec_run w :
  get_time_sec w = Ok (reading w 0) (set_ticks (S (ticks w)) w).
Proof.
  unfold get_time_sec, reading. rewrite bind_run. cbn [clock_gettime].
  rewrite Nat.add_0_r. reflexivity.
Qed.

(** *** The comparison loop *)

Lemma verify_results_unfold bs n :
  verify_results bs n
  = for_loop_break (Z.to_nat n) (fun i => i <? n) (fun i => int_add i 1)
      (compare_at bs) 0 1.
Proof. unfold verify_results, for_range_break. rewrite Z.sub_0_r. reflexivity. Qed.

Section Compare.
Variables (bs : buffers) (p q : block) (ch cs : list (option Z)) (w : world).
Variable n : Z.
Hypothesis Hmax : n <= INT_MAX.
Hypothesis Hp : hw_result bs = Ptr p.
Hypothesis Hq : sw_result bs = Ptr q.
Hypothesis Hch : heap w !! p = Some ch.
Hypothesis Hcs : heap w !! q = Some cs.

Local Abbreviation both := (cells_at ch cs).

Lemma compare_at_run i m h s :
  0 <= i -> both i h s ->
  compare_at bs i m w
  = if negb (h =? s) then Ok (Break 0) (emit [mismatch_line i h s] w)
    else Ok (Continue m) w.
Proof.
  intros Hi [Hh Hs]. unfold compare_at. rewrite Hp, Hq.
  rewrite (bind_ok _ _ _ h w) by (eapply load_ok; eauto).
  rewrite (bind_ok _ _ _ s w) by (eapply load_ok; eauto).
  destruct (negb (h =? s)); reflexivity.
Qed.

(** A first difference at distance [d] ends the loop there, whatever lies
    beyond it. *)
Lemma compare_first_mismatch (d : nat) :
  forall lo fuel m h s,
    0 <= lo -> lo + Z.of_nat d < n -> (d < fuel)%nat ->
    (forall i, lo <= i < lo + Z.of_nat d -> exists v, both i v v) ->
    both (lo + Z.of_nat d) h s -> h <> s ->
    for_loop_break fuel (fun i => i <? n) (fun i => int_add i 1)
      (compare_at bs) lo m w
    = Ok 0 (emit [mismatch_line (lo + Z.of_nat d) h s] w).
Proof.
  induction d as [|d IH]; intros lo fuel m h s Hlo Hlen Hfuel Heq Hat Hne;
    rewrite for_loop_break_unfold;
    (destruct (Z.ltb_spec lo n); [|lia]);
    (destruct fuel as [|fuel]; [lia|]).
  - rewrite Z.add_0_r in *.
    rewrite (bind_ok _ _ _ (Break 0) (emit [mismatch_line lo h s] w)).
    + reflexivity.
    + rewrite (compare_at_run lo m h s Hlo Hat).
      destruct (Z.eqb_spec h s); [contradiction | reflexivity].
  - destruct (Heq lo ltac:(lia)) as [v Hv].
    rewrite (bind_ok _ _ _ (Continue m) w).
    + rewrite (int_succ lo n) by (unfold INT_MIN; lia).
      replace (lo + Z.of_nat (S d)) with (lo + 1 + Z.of_nat d) in * by lia.
      apply IH; [lia | lia | lia | | exact Hat | exact Hne].
      intros i Hi. apply Heq. lia.
    + rewrite (compare_at_run lo m v v Hlo Hv), Z.eqb_refl. reflexivity.
Qed.

Lemma compare_all_equal (k : nat) :
  forall lo m,
    0 <= lo -> lo + Z.of_nat k = n ->
    (forall i, lo <= i < n -> exists v, both i v v) ->
    for_loop_break k (fun i => i <? n) (fun i => int_add i 1)
      (compare_at bs) lo m w
    = Ok m w.
Proof.
  induction k as [|k IH]; intros lo m Hlo Hk Heq; rewrite for_loop_break_unfold.
  - destruct (Z.ltb_spec lo n); [lia | reflexivity].
  - destruct (Z.ltb_spec lo n); [|lia].
    destruct (Heq lo ltac:(lia)) as [v Hv].
    rewrite (bind_ok _ _ _ (Continue m) w).
    + rewrite (int_succ lo n) by (unfold INT_MIN; lia).
      apply IH; [lia | lia |]. intros i Hi. apply Heq. lia.
    + rewrite (compare_at_run lo m v v Hlo Hv), Z.eqb_refl. reflexivity.
Qed.

(** When every cell below [n] is written in both blocks, the loop either
    finds them equal or stops at the first difference. *)
Lemma compare_total (k : nat) :
  forall lo,
    0 <= lo ->
    (forall i, lo <= i < lo + Z.of_nat k -> exists h s, both i h s) ->
    (forall i, lo <= i < lo + Z.of_nat k -> exists v, both i v v)
    \/ exists j h s,
         lo <= j < lo + Z.of_nat k /\ both j h s /\ h <> s
         /\ forall i, lo <= i < j -> exists v, both i v v.
Proof.
  induction k as [|k IH]; intros lo Hlo Hinit.
  - left. intros i Hi. lia.
  - destruct (Hinit lo ltac:(lia)) as (h & s & Hat).
    destruct (decide (h = s)) as [->|Hne].
    + destruct (IH (lo + 1) ltac:(lia)) as [Hall | (j & h' & s' & Hj & Hat' & Hne' & Hbelow)].
      * intros i Hi. apply Hinit. lia.
      * left. intros i Hi. destruct (decide (i = lo)) as [->|]; [eauto|].
        apply Hall. lia.
      * right. exists j, h', s'. repeat split; [lia | lia | apply Hat' | apply Hat' | exact Hne' |].
        intros i Hi. destruct (decide (i = lo)) as [->|]; [eauto|].
        apply Hbelow. lia.
    + right. exists lo, h, s. repeat split; [lia | lia | apply Hat | apply Hat | exact Hne |].
      intros i Hi. lia.
Qed.
End Compare.

Section Driver.
(** The heap4 blocks of one benchmark, and the memory around them. *)
Variables (a b hw sw : block) (h0 : gmap block (list (option Z))).
Hypothesis Hab : a <> b.
Hypothesis Hah : a <> hw.
Hypothesis Has : a <> sw.
Hypothesis Hbh : b <> hw.
Hypothesis Hbs : b <> sw.
Hypothesis Hhs : hw <> sw.
Hypothesis Hfa : h0 !! a = None.
Hypothesis Hfb : h0 !! b = None.
Hypothesis Hfh : h0 !! hw = None.
Hypothesis Hfs : h0 !! sw = None.

Local Abbreviation heap4 := (four a b hw sw h0).
Local Abbreviation bufs4 := (bufs a b hw sw).

Lemma four_a A B H S : heap4 A B H S !! a = Some A.
Proof. unfold four. by simplify_map_eq. Qed.
Lemma four_b A B H S : heap4 A B H S !! b = Some B.
Proof. unfold four. by simplify_map_eq. Qed.
Lemma four_hw A B H S : heap4 A B H S !! hw = Some H.
Proof. unfold four. by simplify_map_eq. Qed.
Lemma four_sw A B H S : heap4 A B H S !! sw = Some S.
Proof. unfold four. by simplify_map_eq. Qed.

Lemma insert_four_a X A B H S : <[a := X]> (heap4 A B H S) = heap4 X B H S.
Proof. unfold four. apply insert_insert_eq. Qed.
Lemma insert_four_b X A B H S : <[b := X]> (heap4 A B H S) = heap4 A X H S.
Proof.
  unfold four. rewrite (insert_insert_ne _ b a) by done.
  by rewrite insert_insert_eq.
Qed.
Lemma insert_four_hw X A B H S : <[hw := X]> (heap4 A B H S) = heap4 A B X S.
Proof.
  unfold four. rewrite (insert_insert_ne _ hw a), (insert_insert_ne _ hw b) by done.
  by rewrite insert_insert_eq.
Qed.
Lemma insert_four_sw X A B H S : <[sw := X]> (heap4 A B H S) = heap4 A B H X.
Proof.
  unfold four.
  rewrite (insert_insert_ne _ sw a), (insert_insert_ne _ sw b),
    (insert_insert_ne _ sw hw) by done.
  by rewrite insert_insert_eq.
Qed.

Lemma delete_four A B H S :
  delete sw (delete hw (delete b (delete a (heap4 A B H S)))) = h0.
Proof.
  unfold four. apply map_eq. intros p.
  destruct (decide (p = sw)) as [->|]; [by simplify_map_eq|].
  destruct (decide (p = hw)) as [->|]; [by simplify_map_eq|].
  destruct (decide (p = b)) as [->|]; [by simplify_map_eq|].
  destruct (decide (p = a)) as [->|]; by simplify_map_eq.
Qed.

Variable n : Z.
Hypothesis Hn : 0 <= n.
Hypothesis Hmax : n <= INT_MAX.

Lemma store_four_a A B Rh Rs i v w :
  heap w = heap4 A B Rh Rs -> 0 <= i < Z.of_nat (length A) ->
  store (Ptr a) i v w
  = Ok tt (set_heap (heap4 (<[Z.to_nat i := Some v]> A) B Rh Rs) w).
Proof.
  intros Hw Hi. erewrite store_ok; [|rewrite Hw; apply four_a|exact Hi].
  rewrite Hw, insert_four_a. reflexivity.
Qed.

Lemma store_four_b A B Rh Rs i v w :
  heap w = heap4 A B Rh Rs -> 0 <= i < Z.of_nat (length B) ->
  store (Ptr b) i v w
  = Ok tt (set_heap (heap4 A (<[Z.to_nat i := Some v]> B) Rh Rs) w).
Proof.
  intros Hw Hi. erewrite store_ok; [|rewrite Hw; apply four_b|exact Hi].
  rewrite Hw, insert_four_b. reflexivity.
Qed.

(** Lines 76-80. *)
Lemma init_vectors_run A B Rh Rs w :
  heap w = heap4 A B Rh Rs ->
  length A = Z.to_nat n -> length B = Z.to_nat n ->
  init_vectors bufs4 n w
  = Ok tt (set_heap (heap4 (Some <$> inputs_a n) (Some <$> inputs_b n) Rh Rs) w).
Proof.
  intros Hw HA HB. unfold init_vectors.
  edestruct (for_range_inv
    (fun i w' => w' = set_heap (heap4 (filled (inputs_a n) A i)
                                     (filled (inputs_b n) B i) Rh Rs) w)
)
    with (lo := 0) (hi := n) (w := w) as (w' & Hrun & ->);
    [unfold INT_MIN; lia | exact Hn | exact Hmax | | | rewrite Hrun].
  - intros i w1 Hi ->. eexists. split; [|reflexivity]. cbn [vector_a vector_b bufs].
    erewrite bind_ok.
    2:{ apply store_four_a; [reflexivity|]. unfold filled.
        rewrite fill_length; [lia | rewrite inputs_a_length; lia | lia]. }
    erewrite store_four_b; [|reflexivity|].
    2:{ unfold filled.
        rewrite fill_length; [lia | rewrite inputs_b_length; lia | lia]. }
    unfold filled. replace (Z.to_nat (i + 1)) with (S (Z.to_nat i)) by lia.
    change (to_data (int_add (int_rem i 100) 1)) with (input_a i).
    change (to_data (int_add (int_rem (int_sub n i) 100) 1)) with (input_b n i).
    rewrite (fill_step (inputs_a n) A (Z.to_nat i) (input_a i))
      by (first [apply inputs_a_lookup; lia | lia]).
    rewrite (fill_step (inputs_b n) B (Z.to_nat i) (input_b n i))
      by (first [apply inputs_b_lookup; lia | lia]).
    reflexivity.
  - rewrite !filled_0, <- Hw. symmetry. apply set_heap_id.
  - rewrite !filled_all;
      rewrite ?inputs_a_length, ?inputs_b_length; try lia. reflexivity.
Qed.

Section Inputs.
Variables (X Y : list Z).
Hypothesis HX : length X = Z.to_nat n.
Hypothesis HY : length Y = Z.to_nat n.

Lemma products_length_n : length (products X Y) = Z.to_nat n.
Proof. rewrite products_length. lia. Qed.

Lemma software_on_four Rh Rs w :
  heap w = heap4 (Some <$> X) (Some <$> Y) Rh Rs -> length Rs = Z.to_nat n ->
  software_vector_multiply (Ptr a) (Ptr b) (Ptr sw) n w
  = Ok tt (set_heap (heap4 (Some <$> X) (Some <$> Y) Rh
                          (Some <$> products X Y)) w).
Proof.
  intros Hw HRs.
  rewrite (software_vector_multiply_run a b sw X Y Rs n w);
    rewrite ?Hw; auto using four_a, four_b, four_sw; try lia.
  unfold multiplied. rewrite Hw, insert_four_sw, filled_all;
    rewrite ?products_length_n; try lia. reflexivity.
Qed.

Lemma hardware_on_four Rh Rs w :
  heap w = heap4 (Some <$> X) (Some <$> Y) Rh Rs -> length Rh = Z.to_nat n ->
  hardware_vector_multiply (Ptr a) (Ptr b) (Ptr hw) n w
  = Ok tt (set_slept (slept w + 1)
             (set_heap (heap4 (Some <$> X) (Some <$> Y)
                             (Some <$> products X Y) Rs) w)).
Proof.
  intros Hw HRh. unfold hardware_vector_multiply.
  rewrite (hardware_vector_multiply_when_run a b hw X Y Rh n w);
    rewrite ?Hw; auto using four_a, four_b, four_hw; try lia.
  unfold multiplied. rewrite Hw, insert_four_hw, filled_all;
    rewrite ?products_length_n; try lia. reflexivity.
Qed.
End Inputs.

Section Timed.
Variables (X Y : list Z).
Hypothesis HX : length X = Z.to_nat n.
Hypothesis HY : length Y = Z.to_nat n.

(** Lines 83-90: [NUM_TESTS] calls between two readings of the clock. *)
Lemma time_hardware_run Rh Rs w :
  heap w = heap4 (Some <$> X) (Some <$> Y) Rh Rs -> length Rh = Z.to_nat n ->
  time_hardware bufs4 n w
  = Ok (reading w 1 - reading w 0)%float
       (set_ticks (ticks w + 2)
          (set_slept (slept w + NUM_TESTS)
             (set_heap (heap4 (Some <$> X) (Some <$> Y)
                             (Some <$> products X Y) Rs) w))).
Proof.
  intros Hw HRh. unfold time_hardware.
  erewrite bind_ok by apply get_time_sec_run.
  set (w1 := set_ticks (S (ticks w)) w).
  edestruct (for_range_inv
    (fun j w' => w' = set_slept (slept w + j)
                        (set_heap (heap4 (Some <$> X) (Some <$> Y)
                           (if j =? 0 then Rh else Some <$> products X Y) Rs) w1))
    (fun _ => hardware_vector_multiply (vector_a bufs4) (vector_b bufs4)
                (hw_result bufs4) n) 0 NUM_TESTS w1)
    as (w' & Hrun & ->).
  - unfold INT_MIN. lia.
  - unfold NUM_TESTS. lia.
  - unfold NUM_TESTS, INT_MAX. lia.
  - intros j w2 Hj ->. eexists. split; [|reflexivity].
    cbn [vector_a vector_b hw_result bufs].
    rewrite (hardware_on_four X Y HX HY
               (if j =? 0 then Rh else Some <$> products X Y) Rs).
    + destruct (Z.eqb_spec (j + 1) 0); [lia|].
      unfold set_slept, set_heap. simpl. do 2 f_equal. lia.
    + reflexivity.
    + destruct (j =? 0); [exact HRh|].
      rewrite length_fmap. apply products_length_n; assumption.
  - change (0 =? 0) with true. cbv beta iota. rewrite Z.add_0_r, <- Hw.
    unfold w1. destruct w. reflexivity.
  - erewrite bind_ok by exact Hrun.
    erewrite bind_ok by apply get_time_sec_run.
    change (NUM_TESTS =? 0) with false. cbv beta iota.
    subst w1. unfold reading, set_ticks, set_slept, set_heap. cbn [mret M_ret ret].
    cbn [heap clock ticks slept out].
    replace (S (ticks w) + 0)%nat with (ticks w + 1)%nat by lia.
    replace (S (S (ticks w))) with (ticks w + 2)%nat by lia.
    reflexivity.
Qed.

(** Lines 93-100. *)
Lemma time_software_run Rh Rs w :
  heap w = heap4 (Some <$> X) (Some <$> Y) Rh Rs -> length Rs = Z.to_nat n ->
  time_software bufs4 n w
  = Ok (reading w 1 - reading w 0)%float
       (set_ticks (ticks w + 2)
          (set_heap (heap4 (Some <$> X) (Some <$> Y) Rh
                          (Some <$> products X Y)) w)).
Proof.
  intros Hw HRs. unfold time_software.
  erewrite bind_ok by apply get_time_sec_run.
  set (w1 := set_ticks (S (ticks w)) w).
  edestruct (for_range_inv
    (fun j w' => w' = set_heap (heap4 (Some <$> X) (Some <$> Y) Rh
                           (if j =? 0 then Rs else Some <$> products X Y)) w1)
    (fun _ => software_vector_multiply (vector_a bufs4) (vector_b bufs4)
                (sw_result bufs4) n) 0 NUM_TESTS w1)
    as (w' & Hrun & ->).
  - unfold INT_MIN. lia.
  - unfold NUM_TESTS. lia.
  - unfold NUM_TESTS, INT_MAX. lia.
  - intros j w2 Hj ->. eexists. split; [|reflexivity].
    cbn [vector_a vector_b sw_result bufs].
    rewrite (software_on_four X Y HX HY Rh
               (if j =? 0 then Rs else Some <$> products X Y)).
    + destruct (Z.eqb_spec (j + 1) 0); [lia|]. reflexivity.
    + reflexivity.
    + destruct (j =? 0); [exact HRs|].
      rewrite length_fmap. apply products_length_n; assumption.
  - change (0 =? 0) with true. cbv beta iota. rewrite <- Hw.
    unfold w1. destruct w. reflexivity.
  - erewrite bind_ok by exact Hrun.
    erewrite bind_ok by apply get_time_sec_run.
    change (NUM_TESTS =? 0) with false. cbv beta iota.
    subst w1. unfold reading, set_ticks, set_heap. cbn [mret M_ret ret].
    cbn [heap clock ticks slept out].
    replace (S (ticks w) + 0)%nat with (ticks w + 1)%nat by lia.
    replace (S (S (ticks w))) with (ticks w + 2)%nat by lia.
    reflexivity.
Qed.
End Timed.

(** Lines 103-112 on two equal result blocks. *)
Lemma verify_results_equal A B (P : list Z) w :
  heap w = heap4 A B (Some <$> P) (Some <$> P) -> length P = Z.to_nat n ->
  verify_results bufs4 n w = Ok 1 w.
Proof.
  intros Hw HP. rewrite verify_results_unfold.
  apply (compare_all_equal bufs4 hw sw (Some <$> P) (Some <$> P) w n);
    try reflexivity; try lia.
  - rewrite Hw. apply four_hw.
  - rewrite Hw. apply four_sw.
  - intros i Hi.
    destruct (lookup_lt_is_Some_2 P (Z.to_nat i) ltac:(lia)) as [v Hv].
    exists v. unfold cells_at. rewrite list_lookup_fmap, Hv. split; reflexivity.
Qed.

Lemma free_vectors_run A B Rh Rs w :
  heap w = heap4 A B Rh Rs -> free_vectors bufs4 w = Ok tt (set_heap h0 w).
Proof.
  intros Hw. unfold free_vectors.
  cbn [vector_a vector_b hw_result sw_result bufs].
  erewrite bind_ok by (eapply free_ok; rewrite Hw; apply four_a).
  erewrite bind_ok
    by (eapply free_ok; cbn [heap set_heap]; rewrite Hw, lookup_delete_ne by done;
        apply four_b).
  erewrite bind_ok
    by (eapply free_ok; cbn [heap set_heap];
        rewrite Hw, !lookup_delete_ne by done; apply four_hw).
  erewrite free_ok
    by (cbn [heap set_heap]; rewrite Hw, !lookup_delete_ne by done; apply four_sw).
  cbn [heap set_heap]. rewrite Hw, delete_four. reflexivity.
Qed.
End Driver.

Lemma print_results_run n th ts m w :
  print_results n th ts m w = Ok tt (emit (report n th ts m) w).
Proof.
  unfold print_results.
  repeat (erewrite bind_ok by apply printf_run).
  rewrite printf_run, !emit_emit. reflexivity.
Qed.

(** Lines 67-70: four fresh, distinct blocks of [n] unwritten cells. *)
Lemma allocate_vectors_run n w :
  0 <= n <= INT_MAX ->
  exists a b hw sw,
    a <> b /\ a <> hw /\ a <> sw /\ b <> hw /\ b <> sw /\ hw <> sw
    /\ heap w !! a = None /\ heap w !! b = None
    /\ heap w !! hw = None /\ heap w !! sw = None
    /\ allocate_vectors n w
       = Ok (bufs a b hw sw)
            (set_heap (four a b hw sw (heap w)
                         (replicate (Z.to_nat n) None) (replicate (Z.to_nat n) None)
                         (replicate (Z.to_nat n) None) (replicate (Z.to_nat n) None))
                      w).
Proof.
  unfold allocate_vectors.
  set (U := replicate (Z.to_nat n) None).
  set (a := fresh (dom (heap w))).
  set (h1 := <[a := U]> (heap w)).
  set (b := fresh (dom h1)).
  set (h2 := <[b := U]> h1).
  set (hw := fresh (dom h2)).
  set (h3 := <[hw := U]> h2).
  set (sw := fresh (dom h3)).
  assert (Fa : a ∉ dom (heap w)) by apply is_fresh.
  assert (Fb : b ∉ dom h1) by apply is_fresh.
  assert (Fh : hw ∉ dom h2) by apply is_fresh.
  assert (Fs : sw ∉ dom h3) by apply is_fresh.
  unfold h3 in Fs. unfold h2 in Fh, Fs. unfold h1 in Fb, Fh, Fs.
  rewrite !dom_insert_L in *.
  assert (Hab : a <> b) by set_solver.
  assert (Hah : a <> hw) by set_solver.
  assert (Has : a <> sw) by set_solver.
  assert (Hbh : b <> hw) by set_solver.
  assert (Hbs : b <> sw) by set_solver.
  assert (Hhs : hw <> sw) by set_solver.
  assert (Hfa : heap w !! a = None) by (apply not_elem_of_dom; set_solver).
  assert (Hfb : heap w !! b = None) by (apply not_elem_of_dom; set_solver).
  assert (Hfh : heap w !! hw = None) by (apply not_elem_of_dom; set_solver).
  assert (Hfs : heap w !! sw = None) by (apply not_elem_of_dom; set_solver).
  intros Hrange.
  exists a, b, hw, sw. repeat split; try assumption.
  erewrite bind_ok by (apply malloc_data_run; exact Hrange).
  erewrite bind_ok by (apply malloc_data_run; exact Hrange).
  erewrite bind_ok by (apply malloc_data_run; exact Hrange).
  erewrite bind_ok by (apply malloc_data_run; exact Hrange).
  cbn [mret M_ret ret heap set_heap]. unfold bufs. f_equal.
  unfold set_heap. cbn [heap clock ticks slept out]. f_equal.
  fold U a h1 b h2 hw h3 sw. unfold four, h3, h2, h1.
  apply map_eq. intros p.
  destruct (decide (p = sw)) as [->|]; [by simplify_map_eq|].
  destruct (decide (p = hw)) as [->|]; [by simplify_map_eq|].
  destruct (decide (p = b)) as [->|]; [by simplify_map_eq|].
  destruct (decide (p = a)) as [->|]; by simplify_map_eq.
Qed.

Lemma run_performance_test_phases n w :
  run_performance_test n w
  = (bufs ← setup_vectors n;
     hw_time ← time_hardware bufs n;
     sw_time ← time_software bufs n;
     finish_benchmark bufs n hw_time sw_time) w.
Proof.
  unfold run_performance_test, setup_vectors, finish_benchmark.
  rewrite !bind_run.
  destruct (allocate_vectors n w) as [bs w1|f]; [|reflexivity].
  rewrite !bind_run.
  destruct (init_vectors bs n w1) as [[] w2|f]; reflexivity.
Qed.

(** One benchmark, from the first allocation to the last release. *)
Lemma run_performance_test_run n w :
  0 <= n <= INT_MAX ->
  run_performance_test n w = Ok tt (benchmarked n w).
Proof.
  intros Hrange. unfold run_performance_test, benchmarked.
  destruct (allocate_vectors_run n w Hrange)
    as (a & b & hw & sw & Hab & Hah & Has & Hbh & Hbs & Hhs
        & Hfa & Hfb & Hfh & Hfs & Halloc).
  assert (Hn : 0 <= n) by lia.
  assert (Hmax : n <= INT_MAX) by lia.
  assert (HU : length (replicate (Z.to_nat n) (@None Z)) = Z.to_nat n)
    by apply length_replicate.
  assert (HX := inputs_a_length n). assert (HY := inputs_b_length n).
  erewrite bind_ok by exact Halloc.
  erewrite bind_ok by (eapply init_vectors_run; eauto).
  erewrite bind_ok
    by (eapply (time_hardware_run a b hw sw (heap w))
          with (X := inputs_a n) (Y := inputs_b n); eauto; reflexivity).
  erewrite bind_ok
    by (eapply (time_software_run a b hw sw (heap w))
          with (X := inputs_a n) (Y := inputs_b n); eauto; reflexivity).
  erewrite bind_ok
    by (eapply (verify_results_equal a b hw sw (heap w))
          with (P := products (inputs_a n) (inputs_b n));
        eauto; first [reflexivity | rewrite products_length; lia]).
  erewrite bind_ok by apply print_results_run.
  erewrite (free_vectors_run a b hw sw (heap w)); eauto; try reflexivity.
  clear. destruct w as [h c t s o].
  cbv [emit reading set_ticks set_slept set_heap set_out
       heap clock ticks slept out].
  replace (t + 2 + 0)%nat with (t + 2)%nat by lia.
  replace (t + 2 + 1)%nat with (t + 3)%nat by lia.
  replace (t + 2 + 2)%nat with (t + 4)%nat by lia.
  reflexivity.
Qed.

(** ** The scaling report *)

Lemma scaling_loop_step fuel size w :
  size <= 4096 ->
  scaling_loop (S fuel) size w
  = scaling_loop fuel (int_mul size 2) (emit [table_row size] w).
Proof.
  intros H. unfold scaling_loop. rewrite for_loop_unfold.
  destruct (Z.leb_spec size 4096); [|lia]. reflexivity.
Qed.

Lemma scaling_loop_done fuel size w :
  4096 < size -> scaling_loop fuel size w = Ok tt w.
Proof.
  intros H. unfold scaling_loop. rewrite for_loop_unfold.
  destruct (Z.leb_spec size 4096); [lia|]. reflexivity.
Qed.

Lemma scaling_loop_starved size w :
  size <= 4096 -> scaling_loop 0 size w = Fault OutOfFuel.
Proof.
  intros H. unfold scaling_loop. rewrite for_loop_unfold.
  destruct (Z.leb_spec size 4096); [|lia]. reflexivity.
Qed.

Ltac scaling_round :=
  rewrite scaling_loop_step by lia;
  match goal with
  | |- context [int_mul ?s 2] =>
      let v := eval vm_compute in (int_mul s 2) in change (int_mul s 2) with v
  end.

(** The loop takes ten rounds: any bound from ten on lets it finish, and
    the result does not depend on the bound. *)
Lemma scaling_loop_rounds fuel w :
  (10 <= fuel)%nat ->
  scaling_loop fuel 8 w = Ok tt (emit (table_row <$> scaling_sizes) w).
Proof.
  intros Hfuel.
  replace fuel with (10 + (fuel - 10))%nat by lia.
  generalize (fuel - 10)%nat as k. intros k. cbn [Nat.add].
  do 10 scaling_round.
  rewrite scaling_loop_done by lia. rewrite !emit_emit. reflexivity.
Qed.

Lemma scaling_loop_nine_rounds w : scaling_loop 9 8 w = Fault OutOfFuel.
Proof.
  do 9 scaling_round. apply scaling_loop_starved. lia.
Qed.

Lemma show_scaling_performance_run w :
  show_scaling_performance w = Ok tt (emit scaling_report w).
Proof.
  unfold show_scaling_performance.
  do 4 (erewrite bind_ok by apply printf_run).
  erewrite bind_ok by (apply scaling_loop_rounds; unfold scaling_fuel; lia).
  do 3 (erewrite bind_ok by apply printf_run).
  rewrite printf_run, !emit_emit. reflexivity.
Qed.

(** ** The entry point *)

Lemma main_run w :
  main w
  = Ok 0 (set_ticks (ticks w + 8)
            (set_slept (slept w + 2 * NUM_TESTS)
               (emit (main_output (reading w)) w))).
Proof.
  unfold main.
  do 3 (erewrite bind_ok by apply printf_run).
  erewrite bind_ok
    by (apply run_performance_test_run; unfold VECTOR_SIZE, INT_MAX; lia).
  erewrite bind_ok by apply printf_run.
  erewrite bind_ok
    by (apply run_performance_test_run; unfold LARGE_VECTOR_SIZE, INT_MAX; lia).
  erewrite bind_ok by apply show_scaling_performance_run.
  cbn [mret M_ret ret]. f_equal.
  destruct w as [h c t s o].
  cbv [benchmarked main_output emit reading set_ticks set_slept set_heap set_out
       heap clock ticks slept out].
  rewrite <- !app_assoc.
  replace (t + 4 + 0)%nat with (t + 4)%nat by lia.
  replace (t + 4 + 1)%nat with (t + 5)%nat by lia.
  replace (t + 4 + 2)%nat with (t + 6)%nat by lia.
  replace (t + 4 + 3)%nat with (t + 7)%nat by lia.
  replace (t + 4 + 4)%nat with (t + 8)%nat by lia.
  replace (s + NUM_TESTS + NUM_TESTS) with (s + 2 * NUM_TESTS) by lia.
  reflexivity.
Qed.

(** ** Further facts on the kernels, the driver and the report *)

Lemma with_slept_twice {A} s s' (o : outcome A) :
  with_slept s (with_slept s' o) = with_slept s o.
Proof. destruct o; reflexivity. Qed.

(** What a load finds in the result block after a kernel has run. *)
Lemma load_multiplied r xs ys cells n w i x y :
  0 <= i < n -> n <= Z.of_nat (length cells) ->
  xs !! Z.to_nat i = Some x -> ys !! Z.to_nat i = Some y ->
  load (Ptr r) i (multiplied r xs ys cells w n)
  = Ok ((x * y) mod 65536) (multiplied r xs ys cells w n).
Proof.
  intros Hi Hc Hx Hy. rewrite <- to_data_int_mul.
  eapply load_ok; [apply lookup_insert_eq | lia |]. unfold filled.
  assert (Hp := products_lookup _ _ _ _ _ Hx Hy).
  rewrite lookup_app_l.
  - rewrite list_lookup_fmap, lookup_take_lt by lia. rewrite Hp. reflexivity.
  - rewrite length_fmap, length_take. apply lookup_lt_Some in Hp. lia.
Qed.

(** Lines 67-80: the memory once the driver has allocated and filled its
    vectors. *)
Lemma driver_setup n w :
  0 <= n <= INT_MAX ->
  exists a b hw sw,
    a <> b /\ a <> hw /\ a <> sw /\ b <> hw /\ b <> sw /\ hw <> sw
    /\ setup_vectors n w
       = Ok (bufs a b hw sw)
            (set_heap (four a b hw sw (heap w)
                         (Some <$> inputs_a n) (Some <$> inputs_b n)
                         (replicate (Z.to_nat n) None)
                         (replicate (Z.to_nat n) None)) w).
Proof.
  intros Hrange.
  destruct (allocate_vectors_run n w Hrange)
    as (a & b & hw & sw & Hab & Hah & Has & Hbh & Hbs & Hhs & _ & _ & _ & _ & Halloc).
  exists a, b, hw, sw. repeat split; try assumption.
  unfold setup_vectors.
  erewrite bind_ok by exact Halloc.
  erewrite bind_ok.
  2:{ eapply init_vectors_run; eauto; try reflexivity; try lia;
        apply length_replicate. }
  reflexivity.
Qed.

Lemma input_a_range i : 0 <= i <= INT_MAX -> 1 <= input_a i <= 100.
Proof.
  intros Hi. rewrite input_a_value by exact Hi.
  assert (0 <= i mod 100 < 100) by (apply Z.mod_pos_bound; lia). lia.
Qed.

Lemma input_b_range n i : 0 <= i < n -> n <= INT_MAX -> 1 <= input_b n i <= 100.
Proof.
  intros Hi Hn. rewrite input_b_value by assumption.
  assert (0 <= (n - i) mod 100 < 100) by (apply Z.mod_pos_bound; lia). lia.
Qed.

Lemma free_vectors_ok a b hw sw w :
  a <> b -> a <> hw -> a <> sw -> b <> hw -> b <> sw -> hw <> sw ->
  is_Some (heap w !! a) -> is_Some (heap w !! b) ->
  is_Some (heap w !! hw) -> is_Some (heap w !! sw) ->
  free_vectors (bufs a b hw sw) w
  = Ok tt (set_heap (delete sw (delete hw (delete b (delete a (heap w))))) w).
Proof.
  intros Hab Hah Has Hbh Hbs Hhs [A HA] [B HB] [H HH] [S HS].
  unfold free_vectors. cbn [vector_a vector_b hw_result sw_result bufs].
  erewrite bind_ok by (eapply free_ok; exact HA).
  erewrite bind_ok
    by (eapply free_ok; cbn [heap set_heap]; rewrite lookup_delete_ne by done;
        exact HB).
  erewrite bind_ok
    by (eapply free_ok; cbn [heap set_heap]; rewrite !lookup_delete_ne by done;
        exact HH).
  erewrite free_ok
    by (cbn [heap set_heap]; rewrite !lookup_delete_ne by done; exact HS).
  reflexivity.
Qed.

Lemma cells_at_written (vh vs : list Z) i h s :
  cells_at (Some <$> vh) (Some <$> vs) i h s
  <-> vh !! Z.to_nat i = Some h /\ vs !! Z.to_nat i = Some s.
Proof.
  unfold cells_at. rewrite !list_lookup_fmap.
  destruct (vh !! Z.to_nat i), (vs !! Z.to_nat i); simpl; split;
    intros [E1 E2]; split; congruence.
Qed.

Lemma double_near_compute (x : float) (q eps v : Q) :
  Q_of_double x = Some v -> Qle_bool (Qabs (v - q)) eps = true ->
  double_near x q eps.
Proof. intros Hv Hle. exists v. split; [exact Hv | apply Qle_bool_imp_le, Hle]. Qed.

(** ** The model on concrete worlds *)

(** The comparison run on [mismatch_world]: it stops at index 1, before the
    cells at index 2 that it could not read. *)
Example verify_results_mismatch_world :
  verify_results (Buffers NULL NULL (Ptr 1) (Ptr 2)) 3 mismatch_world
  = Ok 0 (emit [mismatch_line 1 7 8] mismatch_world).
Proof. reflexivity. Qed.

Example verify_results_reads_in_order :
  verify_results (Buffers NULL NULL (Ptr 2) (Ptr 2)) 3 mismatch_world
  = Fault Uninitialised.
Proof. reflexivity. Qed.

(** The rest of a benchmark whose results differ, run on [faulty_world]. *)
Example faulty_benchmark_completes :
  finish_benchmark (bufs 1%positive 2%positive 3%positive 4%positive) 2
    1%float 2%float faulty_world
  = Ok tt (set_heap ∅ (emit (mismatch_line 1 8 9 :: report 2 1%float 2%float 0)
                             faulty_world)).
Proof. vm_compute. reflexivity. Qed.

(** 300 * 300 = 90000 wraps to 24464 in 16 bits. *)
Example software_vector_multiply_sample :
  software_vector_multiply (Ptr 1) (Ptr 2) (Ptr 3) 2 sample_world
  = Ok tt (set_heap (<[3%positive := [Some 24464; Some 6]]> (heap sample_world))
                    sample_world).
Proof. vm_compute. reflexivity. Qed.

Example hardware_vector_multiply_sample :
  hardware_vector_multiply (Ptr 1) (Ptr 2) (Ptr 3) 2 sample_world
  = Ok tt (set_slept 1
             (set_heap (<[3%positive := [Some 24464; Some 6]]> (heap sample_world))
                       sample_world)).
Proof. vm_compute. reflexivity. Qed.

(** The signature of the kernels lets [result] be one of the inputs; the
    input is then overwritten, which is why the claim C9 asks for a result block
    apart from the inputs, as the driver provides. *)
Example software_vector_multiply_in_place :
  software_vector_multiply (Ptr 1) (Ptr 2) (Ptr 1) 2 sample_world
  = Ok tt (set_heap (<[1%positive := [Some 24464; Some 6]]> (heap sample_world))
                    sample_world).
Proof. vm_compute. reflexivity. Qed.

(** A size beyond the blocks is an access out of bounds. *)
Example software_vector_multiply_too_long :
  software_vector_multiply (Ptr 1) (Ptr 2) (Ptr 3) 3 sample_world
  = Fault OutOfBounds.
Proof. vm_compute. reflexivity. Qed.

(** ** The driver with its kernels as parameters *)

Lemma hardware_variant_product :
  hardware_variant product_cell = hardware_vector_multiply.
Proof. reflexivity. Qed.

Lemma software_variant_product :
  software_variant product_cell = software_vector_multiply.
Proof. reflexivity. Qed.

Lemma run_performance_test_with_kernels :
  run_performance_test_with hardware_vector_multiply software_vector_multiply
  = run_performance_test.
Proof. reflexivity. Qed.

Lemma main_with_kernels :
  main_with hardware_vector_multiply software_vector_multiply = main.
Proof. reflexivity. Qed.

Lemma variant_cells_length cell xs ys :
  length (variant_cells cell xs ys) = Nat.min (length xs) (length ys).
Proof. unfold variant_cells. rewrite length_imap. apply length_zip_with. Qed.

Lemma variant_cells_lookup cell xs ys (k : nat) x y :
  xs !! k = Some x -> ys !! k = Some y ->
  variant_cells cell xs ys !! k = Some (to_data (cell (Z.of_nat k) x y)).
Proof.
  intros Hx Hy. unfold variant_cells.
  assert (Hxy : zip xs ys !! k = Some (x, y)) by (apply lookup_zip_Some; auto).
  rewrite list_lookup_imap, Hxy. reflexivity.
Qed.

Lemma variant_cells_product xs ys :
  variant_cells product_cell xs ys = products xs ys.
Proof.
  apply list_eq. intros k.
  destruct (xs !! k) as [x|] eqn:Hx; [destruct (ys !! k) as [y|] eqn:Hy|].
  - rewrite (variant_cells_lookup _ _ _ _ _ _ Hx Hy).
    rewrite (products_lookup _ _ _ _ _ Hx Hy). reflexivity.
  - rewrite !lookup_ge_None_2; [reflexivity | |];
      rewrite ?variant_cells_length, ?products_length;
      apply lookup_ge_None_1 in Hy; lia.
  - rewrite !lookup_ge_None_2; [reflexivity | |];
      rewrite ?variant_cells_length, ?products_length;
      apply lookup_ge_None_1 in Hx; lia.
Qed.

Section KernelVariant.
Variable cell : Z -> Z -> Z -> Z.
Variables (a b r : block) (xs ys : list Z) (cells : list (option Z)).
Variables (n : Z) (w : world).
Hypothesis Ha : heap w !! a = Some (Some <$> xs).
Hypothesis Hb : heap w !! b = Some (Some <$> ys).
Hypothesis Hr : heap w !! r = Some cells.
Hypothesis Hra : r <> a.
Hypothesis Hrb : r <> b.
Hypothesis Hn : 0 <= n.
Hypothesis Hmax : n <= INT_MAX.
Hypothesis Hxs : length xs = Z.to_nat n.
Hypothesis Hys : length ys = Z.to_nat n.
Hypothesis Hcells : length cells = Z.to_nat n.

Local Abbreviation stored :=
  (fun k => set_heap (<[r := filled (variant_cells cell xs ys) cells k]> (heap w)) w).

Lemma multiply_loop_step i :
  0 <= i < n ->
  (x ← load (Ptr a) i; y ← load (Ptr b) i;
   store (Ptr r) i (to_data (cell i x y))) (stored i)
  = Ok tt (stored (i + 1)).
Proof.
  intros Hi.
  destruct (lookup_lt_is_Some_2 xs (Z.to_nat i) ltac:(lia)) as [x Hx].
  destruct (lookup_lt_is_Some_2 ys (Z.to_nat i) ltac:(lia)) as [y Hy].
  assert (Hp := variant_cells_lookup cell _ _ _ _ _ Hx Hy).
  rewrite Z2Nat.id in Hp by lia.
  rewrite (bind_ok _ _ _ x (stored i)).
  2:{ eapply load_ok; [|lia|].
      - cbn [heap set_heap]. rewrite lookup_insert_ne by done. exact Ha.
      - rewrite list_lookup_fmap, Hx. reflexivity. }
  rewrite (bind_ok _ _ _ y (stored i)).
  2:{ eapply load_ok; [|lia|].
      - cbn [heap set_heap]. rewrite lookup_insert_ne by done. exact Hb.
      - rewrite list_lookup_fmap, Hy. reflexivity. }
  erewrite store_ok.
  2:{ cbn [heap set_heap]. apply lookup_insert_eq. }
  2:{ unfold filled. rewrite fill_length; [lia| |lia].
      rewrite variant_cells_length. lia. }
  unfold filled. cbn [heap set_heap]. unfold set_heap.
  cbn [heap clock ticks slept out]. do 2 f_equal.
  rewrite insert_insert_eq. f_equal.
  replace (Z.to_nat (i + 1)) with (S (Z.to_nat i)) by lia.
  apply fill_step; [exact Hp | lia].
Qed.

Lemma multiply_loop_run :
  multiply_loop cell (Ptr a) (Ptr b) (Ptr r) n w
  = Ok tt (set_heap (<[r := Some <$> variant_cells cell xs ys]> (heap w)) w).
Proof.
  unfold multiply_loop.
  edestruct (for_range_inv (fun i w' => w' = stored i))
    with (lo := 0) (hi := n) (w := w) as (w' & Hrun & ->);
    [unfold INT_MIN; lia | exact Hn | exact Hmax | | | rewrite Hrun].
  - intros i w1 Hi ->. eexists.
    split; [apply multiply_loop_step; lia | reflexivity].
  - rewrite filled_0, insert_id by exact Hr. symmetry. apply set_heap_id.
  - rewrite filled_all; [reflexivity | |];
      rewrite variant_cells_length; lia.
Qed.

Lemma hardware_variant_run :
  hardware_variant cell (Ptr a) (Ptr b) (Ptr r) n w
  = Ok tt (set_slept (slept w + 1)
             (set_heap (<[r := Some <$> variant_cells cell xs ys]> (heap w)) w)).
Proof.
  unfold hardware_variant. change (negb (SIMULATION_MODE =? 0)) with true.
  cbv iota. erewrite bind_ok by reflexivity.
  assert (Hs : sleepless (multiply_loop cell (Ptr a) (Ptr b) (Ptr r) n)).
  { apply sleepless_for_loop. intros i.
    apply sleepless_bind; [apply sleepless_load | intros x].
    apply sleepless_bind; [apply sleepless_load | intros y].
    apply sleepless_store. }
  rewrite Hs, multiply_loop_run. reflexivity.
Qed.
End KernelVariant.

(** ** The timed loops *)

(** A kernel whose first call takes the memory [h] to [h'] and whose
    later calls leave [h'], each call sleeping [d] microseconds and doing
    nothing else. *)
Lemma time_kernel_run (multiply : kernel) a b r n (d : Z)
    (h h' : gmap block (list (option Z))) w :
  (forall w1, heap w1 = h \/ heap w1 = h' ->
     multiply a b r n w1 = Ok tt (set_slept (slept w1 + d) (set_heap h' w1))) ->
  heap w = h ->
  time_kernel multiply a b r n w
  = Ok (reading w 1 - reading w 0)%float
       (set_ticks (ticks w + 2)
          (set_slept (slept w + NUM_TESTS * d) (set_heap h' w))).
Proof.
  intros Hcall Hw. unfold time_kernel.
  erewrite bind_ok by apply get_time_sec_run.
  set (w1 := set_ticks (S (ticks w)) w).
  edestruct (for_range_inv
    (fun j w' => w' = set_slept (slept w + j * d)
                        (set_heap (if j =? 0 then h else h') w1))
    (fun _ => multiply a b r n) 0 NUM_TESTS w1)
    as (w' & Hrun & ->).
  - unfold INT_MIN. lia.
  - unfold NUM_TESTS. lia.
  - unfold NUM_TESTS, INT_MAX. lia.
  - intros j w2 Hj ->. eexists. split; [|reflexivity].
    rewrite Hcall by (cbn [heap set_heap set_slept]; destruct (j =? 0); auto).
    destruct (Z.eqb_spec (j + 1) 0); [lia|].
    unfold set_slept, set_heap. cbn [heap clock ticks slept out].
    do 2 f_equal. lia.
  - change (0 =? 0) with true. cbv beta iota. rewrite Z.mul_0_l, Z.add_0_r, <- Hw.
    unfold w1. destruct w. reflexivity.
  - erewrite bind_ok by exact Hrun.
    erewrite bind_ok by apply get_time_sec_run.
    change (NUM_TESTS =? 0) with false. cbv beta iota.
    subst w1. unfold reading, set_ticks, set_slept, set_heap. cbn [mret M_ret ret].
    cbn [heap clock ticks slept out].
    replace (S (ticks w) + 0)%nat with (ticks w + 1)%nat by lia.
    replace (S (S (ticks w))) with (ticks w + 2)%nat by lia.
    reflexivity.
Qed.

(** ** The comparison of two written vectors *)

Lemma verify_results_verdict bs (p q : block) (hs ss : list Z) n w :
  0 <= n <= INT_MAX ->
  hw_result bs = Ptr p -> sw_result bs = Ptr q ->
  heap w !! p = Some (Some <$> hs) -> heap w !! q = Some (Some <$> ss) ->
  length hs = Z.to_nat n -> length ss = Z.to_nat n ->
  exists match_ lines,
    verify_results bs n w = Ok match_ (emit lines w)
    /\ verdict hs ss match_ lines.
Proof.
  intros [Hn Hmax] Hp Hq HH HS Hlh Hls.
  assert (Hinit : forall i, 0 <= 0 <= i /\ i < 0 + Z.of_nat (Z.to_nat n) ->
            exists h s, cells_at (Some <$> hs) (Some <$> ss) i h s).
  { intros i Hi.
    destruct (lookup_lt_is_Some_2 hs (Z.to_nat i) ltac:(lia)) as [h Hh].
    destruct (lookup_lt_is_Some_2 ss (Z.to_nat i) ltac:(lia)) as [s Hs].
    exists h, s. apply cells_at_written. auto. }
  destruct (compare_total (Some <$> hs) (Some <$> ss) (Z.to_nat n) 0 ltac:(lia))
    as [Hall | (k & h & s & Hk & Hat & Hne & Hbelow)].
  - intros i Hi. apply Hinit. lia.
  - exists 1, []. split.
    + rewrite emit_nil, verify_results_unfold.
      apply (compare_all_equal bs p q (Some <$> hs) (Some <$> ss) w n
               Hmax Hp Hq HH HS); [lia | lia |].
      intros i Hi. apply Hall. lia.
    + left. repeat split. apply list_eq. intros j.
      destruct (decide (j < Z.to_nat n)%nat) as [Hj|Hj].
      * destruct (Hall (Z.of_nat j) ltac:(lia)) as [v Hv].
        apply cells_at_written in Hv. rewrite Nat2Z.id in Hv.
        destruct Hv as [-> ->]. reflexivity.
      * rewrite !lookup_ge_None_2 by lia. reflexivity.
  - exists 0, [mismatch_line k h s]. split.
    + rewrite verify_results_unfold.
      replace (mismatch_line k h s)
        with (mismatch_line (0 + Z.of_nat (Z.to_nat k)) h s)
        by (f_equal; lia).
      apply (compare_first_mismatch bs p q (Some <$> hs) (Some <$> ss) w n
               Hmax Hp Hq HH HS); [lia | lia | lia | | | exact Hne].
      * intros i Hi. apply Hbelow. lia.
      * replace (0 + Z.of_nat (Z.to_nat k)) with k by lia. exact Hat.
    + right. split; [reflexivity|]. exists k, h, s.
      apply cells_at_written in Hat. destruct Hat as [Hh Hs].
      repeat split; try assumption; try lia.
      apply list_eq. intros j. rewrite !lookup_take.
      case_decide as Hj; [|reflexivity].
      destruct (Hbelow (Z.of_nat j) ltac:(lia)) as [v Hv].
      apply cells_at_written in Hv. rewrite Nat2Z.id in Hv.
      destruct Hv as [-> ->]. reflexivity.
Qed.

(** ** One benchmark, whatever its kernels compute *)

Section DriverVariant.
Variables cell_hw cell_sw : Z -> Z -> Z -> Z.
Variables (a b hw sw : block) (h0 : gmap block (list (option Z))).
Hypothesis Hab : a <> b.
Hypothesis Hah : a <> hw.
Hypothesis Has : a <> sw.
Hypothesis Hbh : b <> hw.
Hypothesis Hbs : b <> sw.
Hypothesis Hhs : hw <> sw.
Variable n : Z.
Hypothesis Hn : 0 <= n.
Hypothesis Hmax : n <= INT_MAX.
Variables (X Y : list Z).
Hypothesis HX : length X = Z.to_nat n.
Hypothesis HY : length Y = Z.to_nat n.

Local Abbreviation heap4 := (four a b hw sw h0 (Some <$> X) (Some <$> Y)).

Lemma hardware_variant_on_four Rh Rs w :
  heap w = heap4 Rh Rs -> length Rh = Z.to_nat n ->
  hardware_variant cell_hw (Ptr a) (Ptr b) (Ptr hw) n w
  = Ok tt (set_slept (slept w + 1)
             (set_heap (heap4 (Some <$> variant_cells cell_hw X Y) Rs) w)).
Proof.
  intros Hw HRh.
  rewrite (hardware_variant_run cell_hw a b hw X Y Rh n w);
    rewrite ?Hw; auto using four_a, four_b, four_hw.
  rewrite insert_four_hw by assumption. reflexivity.
Qed.

Lemma software_variant_on_four Rh Rs w :
  heap w = heap4 Rh Rs -> length Rs = Z.to_nat n ->
  software_variant cell_sw (Ptr a) (Ptr b) (Ptr sw) n w
  = Ok tt (set_slept (slept w + 0)
             (set_heap (heap4 Rh (Some <$> variant_cells cell_sw X Y)) w)).
Proof.
  intros Hw HRs. unfold software_variant.
  rewrite (multiply_loop_run cell_sw a b sw X Y Rs n w);
    rewrite ?Hw; auto using four_a, four_b, four_sw.
  rewrite insert_four_sw by assumption.
  rewrite Z.add_0_r. destruct w. reflexivity.
Qed.

Lemma variant_cells_length_n cell :
  length (variant_cells cell X Y) = Z.to_nat n.
Proof. rewrite variant_cells_length, HX, HY. apply Nat.min_id. Qed.

(** Lines 83-90. *)
Lemma time_hardware_variant_run Rh Rs w :
  heap w = heap4 Rh Rs -> length Rh = Z.to_nat n ->
  time_kernel (hardware_variant cell_hw) (Ptr a) (Ptr b) (Ptr hw) n w
  = Ok (reading w 1 - reading w 0)%float
       (set_ticks (ticks w + 2)
          (set_slept (slept w + NUM_TESTS)
             (set_heap (heap4 (Some <$> variant_cells cell_hw X Y) Rs) w))).
Proof.
  intros Hw HRh.
  rewrite (time_kernel_run _ _ _ _ _ 1 (heap4 Rh Rs)
             (heap4 (Some <$> variant_cells cell_hw X Y) Rs));
    [rewrite Z.mul_1_r; reflexivity | | exact Hw].
  intros w1 [H1|H1].
  - apply (hardware_variant_on_four Rh Rs); assumption.
  - apply (hardware_variant_on_four
             (Some <$> variant_cells cell_hw X Y) Rs); [exact H1|].
    rewrite length_fmap. apply variant_cells_length_n.
Qed.

(** Lines 93-100. *)
Lemma time_software_variant_run Rh Rs w :
  heap w = heap4 Rh Rs -> length Rs = Z.to_nat n ->
  time_kernel (software_variant cell_sw) (Ptr a) (Ptr b) (Ptr sw) n w
  = Ok (reading w 1 - reading w 0)%float
       (set_ticks (ticks w + 2)
          (set_heap (heap4 Rh (Some <$> variant_cells cell_sw X Y)) w)).
Proof.
  intros Hw HRs.
  rewrite (time_kernel_run _ _ _ _ _ 0 (heap4 Rh Rs)
             (heap4 Rh (Some <$> variant_cells cell_sw X Y)));
    [rewrite Z.mul_0_r, Z.add_0_r; destruct w; reflexivity | | exact Hw].
  intros w1 [H1|H1].
  - apply (software_variant_on_four Rh Rs); assumption.
  - apply (software_variant_on_four Rh
             (Some <$> variant_cells cell_sw X Y)); [exact H1|].
    rewrite length_fmap. apply variant_cells_length_n.
Qed.
End DriverVariant.

Lemma run_performance_test_with_body hw_multiply sw_multiply n :
  run_performance_test_with hw_multiply sw_multiply n
  = (bufs ← allocate_vectors n; benchmark_on_with hw_multiply sw_multiply bufs n).
Proof. reflexivity. Qed.

Lemma run_performance_test_body n :
  run_performance_test n = (bufs ← allocate_vectors n; benchmark_on bufs n).
Proof. reflexivity. Qed.

Lemma benchmark_on_with_kernels :
  benchmark_on_with hardware_vector_multiply software_vector_multiply
  = benchmark_on.
Proof. reflexivity. Qed.

(** A memory that holds four separate blocks is the rest of it with the
    four blocks added. *)
Lemma four_of_heap a b hw sw (h : gmap block (list (option Z))) A B Rh Rs :
  h !! a = Some A -> h !! b = Some B -> h !! hw = Some Rh -> h !! sw = Some Rs ->
  h = four a b hw sw (released a b hw sw h) A B Rh Rs.
Proof.
  intros HA HB HH HS. unfold four, released. apply map_eq. intros p.
  destruct (decide (p = a)) as [->|]; [by simplify_map_eq|].
  destruct (decide (p = b)) as [->|]; [by simplify_map_eq|].
  destruct (decide (p = hw)) as [->|]; [by simplify_map_eq|].
  destruct (decide (p = sw)) as [->|]; by simplify_map_eq.
Qed.

(** A pair of equal vectors has the verdict 1, and no other. *)
Lemma verdict_equal hs m lines : verdict hs hs m lines -> m = 1 /\ lines = [].
Proof.
  intros [(-> & -> & _) | (_ & k & h & s & _ & _ & Hh & Hs & Hne & _)].
  - split; reflexivity.
  - congruence.
Qed.

(** Lines 72-125 on four separate blocks of [n] cells, whatever they hold
    and whatever the kernels compute. *)
Lemma benchmark_on_with_run cell_hw cell_sw a b hw sw h0 A B Rh Rs n w :
  a <> b -> a <> hw -> a <> sw -> b <> hw -> b <> sw -> hw <> sw ->
  h0 !! a = None -> h0 !! b = None -> h0 !! hw = None -> h0 !! sw = None ->
  0 <= n <= INT_MAX ->
  heap w = four a b hw sw h0 A B Rh Rs ->
  length A = Z.to_nat n -> length B = Z.to_nat n ->
  length Rh = Z.to_nat n -> length Rs = Z.to_nat n ->
  exists match_ lines,
    benchmark_on_with (hardware_variant cell_hw) (software_variant cell_sw)
      (bufs a b hw sw) n w
    = Ok tt (set_heap h0 (benchmarked_with match_ lines n w))
    /\ verdict (variant_cells cell_hw (inputs_a n) (inputs_b n))
               (variant_cells cell_sw (inputs_a n) (inputs_b n)) match_ lines.
Proof.
  intros Hab Hah Has Hbh Hbs Hhs Hfa Hfb Hfh Hfs [Hn Hmax] Hw HA HB HRh HRs.
  assert (HX := inputs_a_length n). assert (HY := inputs_b_length n).
  set (Hv := variant_cells cell_hw (inputs_a n) (inputs_b n)).
  set (Sv := variant_cells cell_sw (inputs_a n) (inputs_b n)).
  assert (HHv : length Hv = Z.to_nat n)
    by (unfold Hv; rewrite variant_cells_length; lia).
  assert (HSv : length Sv = Z.to_nat n)
    by (unfold Sv; rewrite variant_cells_length; lia).
  pose (w3 := set_ticks (ticks w + 4)
                (set_slept (slept w + NUM_TESTS)
                   (set_heap (four a b hw sw h0 (Some <$> inputs_a n)
                                (Some <$> inputs_b n) (Some <$> Hv) (Some <$> Sv))
                      w))).
  destruct (verify_results_verdict (bufs a b hw sw) hw sw Hv Sv n w3)
    as (m & lines & Hverify & Hverdict);
    [lia | reflexivity | reflexivity
     | apply four_hw; assumption | apply four_sw; assumption
     | exact HHv | exact HSv |].
  exists m, lines. split; [|exact Hverdict].
  unfold benchmark_on_with.
  erewrite bind_ok by (eapply init_vectors_run; eauto).
  cbn [vector_a vector_b hw_result sw_result bufs].
  erewrite bind_ok
    by (eapply (time_hardware_variant_run cell_hw a b hw sw h0)
          with (X := inputs_a n) (Y := inputs_b n); eauto; reflexivity).
  erewrite bind_ok
    by (eapply (time_software_variant_run cell_sw a b hw sw h0)
          with (X := inputs_a n) (Y := inputs_b n); eauto;
        first [reflexivity | rewrite length_fmap; exact HHv]).
  fold Hv Sv.
  erewrite bind_ok.
  2:{ rewrite <- Hverify. f_equal. subst w3. clear. destruct w as [h c t s o].
      cbv [set_ticks set_slept set_heap heap clock ticks slept out].
      replace (t + 2 + 2)%nat with (t + 4)%nat by lia. reflexivity. }
  erewrite bind_ok by apply print_results_run.
  erewrite (free_vectors_run a b hw sw h0); eauto; try reflexivity.
  subst w3. clear. destruct w as [h c t s o].
  cbv [benchmarked_with emit reading set_ticks set_slept set_heap set_out
       heap clock ticks slept out].
  rewrite <- app_assoc.
  replace (t + 2 + 0)%nat with (t + 2)%nat by lia.
  replace (t + 2 + 1)%nat with (t + 3)%nat by lia.
  reflexivity.
Qed.

(** One benchmark, from the first allocation to the last release. *)
Lemma run_performance_test_with_run cell_hw cell_sw n w :
  0 <= n <= INT_MAX ->
  exists match_ lines,
    run_performance_test_with (hardware_variant cell_hw)
      (software_variant cell_sw) n w
    = Ok tt (benchmarked_with match_ lines n w)
    /\ verdict (variant_cells cell_hw (inputs_a n) (inputs_b n))
               (variant_cells cell_sw (inputs_a n) (inputs_b n)) match_ lines.
Proof.
  intros Hrange.
  destruct (allocate_vectors_run n w Hrange)
    as (a & b & hw & sw & Hab & Hah & Has & Hbh & Hbs & Hhs
        & Hfa & Hfb & Hfh & Hfs & Halloc).
  assert (HU : length (replicate (Z.to_nat n) (@None Z)) = Z.to_nat n)
    by apply length_replicate.
  set (U := replicate (Z.to_nat n) (@None Z)) in *.
  destruct (benchmark_on_with_run cell_hw cell_sw a b hw sw (heap w)
              U U U U n (set_heap (four a b hw sw (heap w) U U U U) w)
              Hab Hah Has Hbh Hbs Hhs Hfa Hfb Hfh Hfs Hrange
              eq_refl HU HU HU HU)
    as (m & lines & Hrun & Hverdict).
  exists m, lines. split; [|exact Hverdict].
  rewrite run_performance_test_with_body.
  erewrite bind_ok by exact Halloc.
  rewrite Hrun. clear. destruct w. reflexivity.
Qed.

(** The whole program, whatever the kernels compute. *)
Lemma main_with_run cell_hw cell_sw w :
  exists match8 lines8 match1024 lines1024,
    main_with (hardware_variant cell_hw) (software_variant cell_sw) w
    = Ok 0 (set_ticks (ticks w + 8)
              (set_slept (slept w + 2 * NUM_TESTS)
                 (emit (main_output_with (reading w)
                          match8 lines8 match1024 lines1024) w)))
    /\ verdict (variant_cells cell_hw (inputs_a VECTOR_SIZE) (inputs_b VECTOR_SIZE))
               (variant_cells cell_sw (inputs_a VECTOR_SIZE) (inputs_b VECTOR_SIZE))
               match8 lines8
    /\ verdict (variant_cells cell_hw (inputs_a LARGE_VECTOR_SIZE)
                  (inputs_b LARGE_VECTOR_SIZE))
               (variant_cells cell_sw (inputs_a LARGE_VECTOR_SIZE)
                  (inputs_b LARGE_VECTOR_SIZE))
               match1024 lines1024.
Proof.
  unfold main_with.
  do 3 (erewrite bind_ok by apply printf_run).
  match goal with
  | |- context [match run_performance_test_with _ _ VECTOR_SIZE ?w1 with _ => _ end] =>
      destruct (run_performance_test_with_run cell_hw cell_sw VECTOR_SIZE w1)
        as (m8 & l8 & Hrun8 & Hv8); [unfold VECTOR_SIZE, INT_MAX; lia|]
  | |- context [(run_performance_test_with ?h ?s VECTOR_SIZE ≫= ?k) ?w1] =>
      destruct (run_performance_test_with_run cell_hw cell_sw VECTOR_SIZE w1)
        as (m8 & l8 & Hrun8 & Hv8); [unfold VECTOR_SIZE, INT_MAX; lia|]
  end.
  exists m8, l8.
  erewrite bind_ok by exact Hrun8.
  erewrite bind_ok by apply printf_run.
  match goal with
  | |- context [(run_performance_test_with ?h ?s LARGE_VECTOR_SIZE ≫= ?k) ?w1] =>
      destruct (run_performance_test_with_run cell_hw cell_sw LARGE_VECTOR_SIZE w1)
        as (m1024 & l1024 & Hrun1024 & Hv1024);
        [unfold LARGE_VECTOR_SIZE, INT_MAX; lia|]
  end.
  exists m1024, l1024.
  erewrite bind_ok by exact Hrun1024.
  erewrite bind_ok by apply show_scaling_performance_run.
  split; [|split; assumption].
  cbn [mret M_ret ret]. f_equal.
  clear. destruct w as [h c t s o].
  cbv [benchmarked_with main_output_with emit reading set_ticks set_slept
       set_heap set_out heap clock ticks slept out].
  rewrite <- !app_assoc.
  replace (t + 4 + 0)%nat with (t + 4)%nat by lia.
  replace (t + 4 + 1)%nat with (t + 5)%nat by lia.
  replace (t + 4 + 2)%nat with (t + 6)%nat by lia.
  replace (t + 4 + 3)%nat with (t + 7)%nat by lia.
  replace (t + 4 + 4)%nat with (t + 8)%nat by lia.
  replace (s + NUM_TESTS + NUM_TESTS) with (s + 2 * NUM_TESTS) by lia.
  reflexivity.
Qed.

(** The first index where two vectors differ decides the verdict. *)
Lemma verdict_mismatch hs ss m lines k h s :
  verdict hs ss m lines ->
  0 <= k -> hs !! Z.to_nat k = Some h -> ss !! Z.to_nat k = Some s -> h <> s ->
  take (Z.to_nat k) hs = take (Z.to_nat k) ss ->
  m = 0 /\ lines = [mismatch_line k h s].
Proof.
  intros [(_ & _ & ->) | (-> & k' & h' & s' & -> & Hk' & Hh' & Hs' & Hne' & Hbelow')]
    Hk Hh Hs Hne Hbelow; [congruence|].
  split; [reflexivity|].
  destruct (Z.lt_trichotomy k' k) as [Hlt | [-> | Hlt]].
  - exfalso. apply Hne'.
    assert (E : take (Z.to_nat k) hs !! Z.to_nat k'
                = take (Z.to_nat k) ss !! Z.to_nat k') by (rewrite Hbelow; reflexivity).
    rewrite !lookup_take_lt in E by lia. congruence.
  - congruence.
  - exfalso. apply Hne.
    assert (E : take (Z.to_nat k') hs !! Z.to_nat k
                = take (Z.to_nat k') ss !! Z.to_nat k) by (rewrite Hbelow'; reflexivity).
    rewrite !lookup_take_lt in E by lia. congruence.
Qed.

(** A hardware kernel that gets the cell at index 3 wrong: both benchmarks
    report it and the program goes on to its end. *)
Example faulty_hardware_is_reported w :
  main_with (hardware_variant faulty_cell) (software_variant product_cell) w
  = Ok 0 (set_ticks (ticks w + 8)
            (set_slept (slept w + 2 * NUM_TESTS)
               (emit (main_output_with (reading w)
                        0 [mismatch_line 3 0 24] 0 [mismatch_line 3 0 88]) w))).
Proof.
  destruct (main_with_run faulty_cell product_cell w)
    as (m8 & l8 & m1024 & l1024 & Hrun & Hv8 & Hv1024).
  apply (verdict_mismatch _ _ _ _ 3 0 24) in Hv8 as [-> ->];
    [| lia | vm_compute; reflexivity | vm_compute; reflexivity | lia
     | vm_compute; reflexivity].
  apply (verdict_mismatch _ _ _ _ 3 0 88) in Hv1024 as [-> ->];
    [| lia | vm_compute; reflexivity | vm_compute; reflexivity | lia
     | vm_compute; reflexivity].
  exact Hrun.
Qed.
(** * The claims of the specification *)

(** C1. For every vector size [n >= 0] (an [int]) and every pair of input
    vectors [xs], [ys] of length [n], the two kernels produce identical
    output vectors: run on the same inputs, with a result block of [n]
    cells apart from them, both return, in the same memory, and the result
    block holds the products.  Whatever the arguments, the outcome of
    [hardware_vector_multiply] is that of [software_vector_multiply] up to
    the sleep counter (same memory and output, or the same fault).  And
    the driver, run at the size [n], finds its two result vectors equal:
    it prints its report with "match" and no mismatch line. *)
Theorem C1_hardware_and_software_agree (w : world) (a b r : block)
    (xs ys : list Z) (cells : list (option Z)) (n : Z) :
  heap w !! a = Some (Some <$> xs) ->
  heap w !! b = Some (Some <$> ys) ->
  heap w !! r = Some cells ->
  r <> a -> r <> b ->
  length xs = Z.to_nat n -> length ys = Z.to_nat n ->
  length cells = Z.to_nat n ->
  0 <= n <= INT_MAX ->
  (exists ws wh,
     software_vector_multiply (Ptr a) (Ptr b) (Ptr r) n w = Ok tt ws
     /\ hardware_vector_multiply (Ptr a) (Ptr b) (Ptr r) n w = Ok tt wh
     /\ heap wh = heap ws
     /\ heap ws !! r = Some (Some <$> products xs ys))
  /\ (forall pa pb pr m w0,
        with_slept 0 (hardware_vector_multiply pa pb pr m w0)
        = with_slept 0 (software_vector_multiply pa pb pr m w0))
  /\ forall w0, exists hw_time sw_time w',
       run_performance_test n w0 = Ok tt w'
       /\ out w' = out w0 ++ report n hw_time sw_time 1.
Proof.
  intros Ha Hb Hr Hra Hrb Hxs Hys Hcells [Hn Hmax]. repeat split.
  - exists (multiplied r xs ys cells w n),
      (set_slept (slept w + 1) (multiplied r xs ys cells w n)).
    split; [apply (software_vector_multiply_run a b r xs ys cells n w); auto; lia|].
    split.
    { unfold hardware_vector_multiply.
      rewrite (hardware_vector_multiply_when_run a b r xs ys cells n w); auto; lia. }
    split; [reflexivity|].
    unfold multiplied. cbn [heap set_heap]. rewrite lookup_insert_eq.
    rewrite filled_all; [reflexivity | | ]; rewrite products_length; lia.
  - intros pa pb pr m w0. unfold hardware_vector_multiply.
    rewrite hardware_vector_multiply_when_unfold.
    change (negb (SIMULATION_MODE =? 0)) with true. cbv iota.
    apply with_slept_twice.
  - intros w0. rewrite (run_performance_test_run n w0) by lia.
    do 3 eexists. split; reflexivity.
Qed.

Lemma C1_agree_witness :
  (exists ws wh,
     software_vector_multiply (Ptr 1) (Ptr 2) (Ptr 3) 2 sample_world = Ok tt ws
     /\ hardware_vector_multiply (Ptr 1) (Ptr 2) (Ptr 3) 2 sample_world = Ok tt wh
     /\ heap wh = heap ws
     /\ heap ws !! 3%positive = Some (Some <$> products [300; 2] [300; 3]))
  /\ (forall pa pb pr m w0,
        with_slept 0 (hardware_vector_multiply pa pb pr m w0)
        = with_slept 0 (software_vector_multiply pa pb pr m w0))
  /\ forall w0, exists hw_time sw_time w',
       run_performance_test 2 w0 = Ok tt w'
       /\ out w' = out w0 ++ report 2 hw_time sw_time 1.
Proof.
  apply (C1_hardware_and_software_agree sample_world 1%positive 2%positive
           3%positive [300; 2] [300; 3] [None; None] 2);
    first [reflexivity | unfold INT_MAX; lia].
Defined.

(** C2. For every size [n >= 0], every pair of input vectors [xs], [ys] of
    length [n] (held in the blocks [a] and [b], with a result block [r] of
    [n] cells apart from them) and every index [i] in [0, n), both kernels
    return and leave [(xs[i] * ys[i]) mod 65536] in [result[i]]. *)
Theorem C2_kernels_store_wrapped_products (w : world) (a b r : block)
    (xs ys : list Z) (cells : list (option Z)) (n i : Z) :
  heap w !! a = Some (Some <$> xs) ->
  heap w !! b = Some (Some <$> ys) ->
  heap w !! r = Some cells ->
  r <> a -> r <> b ->
  length xs = Z.to_nat n -> length ys = Z.to_nat n ->
  length cells = Z.to_nat n ->
  0 <= i < n -> n <= INT_MAX ->
  exists x y ws wh,
    xs !! Z.to_nat i = Some x /\ ys !! Z.to_nat i = Some y
    /\ software_vector_multiply (Ptr a) (Ptr b) (Ptr r) n w = Ok tt ws
    /\ hardware_vector_multiply (Ptr a) (Ptr b) (Ptr r) n w = Ok tt wh
    /\ load (Ptr r) i ws = Ok ((x * y) mod 65536) ws
    /\ load (Ptr r) i wh = Ok ((x * y) mod 65536) wh.
Proof.
  intros Ha Hb Hr Hra Hrb Hxs Hys Hcells Hi Hmax.
  destruct (lookup_lt_is_Some_2 xs (Z.to_nat i) ltac:(lia)) as [x Hx].
  destruct (lookup_lt_is_Some_2 ys (Z.to_nat i) ltac:(lia)) as [y Hy].
  exists x, y, (multiplied r xs ys cells w n),
    (set_slept (slept w + 1) (multiplied r xs ys cells w n)).
  assert (Hload := load_multiplied r xs ys cells n w i x y Hi ltac:(lia) Hx Hy).
  repeat split; try assumption.
  - apply (software_vector_multiply_run a b r xs ys cells n w); auto; lia.
  - unfold hardware_vector_multiply.
    rewrite (hardware_vector_multiply_when_run a b r xs ys cells n w); auto; lia.
  - rewrite sleepless_load, Hload. reflexivity.
Qed.

Lemma C2_wrapped_products_witness :
  exists x y ws wh,
    [300; 2] !! Z.to_nat 0 = Some x /\ [300; 3] !! Z.to_nat 0 = Some y
    /\ software_vector_multiply (Ptr 1) (Ptr 2) (Ptr 3) 2 sample_world = Ok tt ws
    /\ hardware_vector_multiply (Ptr 1) (Ptr 2) (Ptr 3) 2 sample_world = Ok tt wh
    /\ load (Ptr 3) 0 ws = Ok ((x * y) mod 65536) ws
    /\ load (Ptr 3) 0 wh = Ok ((x * y) mod 65536) wh.
Proof.
  apply (C2_kernels_store_wrapped_products sample_world 1%positive 2%positive
           3%positive [300; 2] [300; 3] [None; None] 2 0);
    first [reflexivity | unfold INT_MAX; lia].
Defined.

(** C3. The driver fills its input vectors deterministically: for every
    vector size [n] (an [int]) and every [i] in [0, n), once lines 67-80
    have run ([setup_vectors], the first part of [run_performance_test]),
    [vector_a[i]] is [(i mod 100) + 1] and [vector_b[i]] is
    [((n - i) mod 100) + 1]. *)
Theorem C3_driver_inputs (n i : Z) (w : world) :
  0 <= i < n -> n <= INT_MAX ->
  exists bs w',
    setup_vectors n w = Ok bs w'
    /\ load (vector_a bs) i w' = Ok (i mod 100 + 1) w'
    /\ load (vector_b bs) i w' = Ok ((n - i) mod 100 + 1) w'.
Proof.
  intros Hi Hn.
  destruct (driver_setup n w ltac:(lia))
    as (a & b & hw & sw & Hab & Hah & Has & Hbh & Hbs & Hhs & Hrun).
  eexists _, _. split; [exact Hrun|]. cbn [vector_a vector_b bufs]. split.
  - rewrite <- input_a_value by lia.
    eapply load_ok; [apply four_a | lia |].
    rewrite list_lookup_fmap, inputs_a_lookup by lia. reflexivity.
  - rewrite <- input_b_value by lia.
    eapply load_ok; [cbn [heap set_heap]; apply four_b; assumption | lia |].
    rewrite list_lookup_fmap, inputs_b_lookup by lia. reflexivity.
Qed.

Lemma C3_driver_inputs_witness :
  exists bs w',
    setup_vectors 250 sample_world
    = Ok bs w'
    /\ load (vector_a bs) 199 w' = Ok (199 mod 100 + 1) w'
    /\ load (vector_b bs) 199 w' = Ok ((250 - 199) mod 100 + 1) w'.
Proof.
  apply (C3_driver_inputs 250 199 sample_world); unfold INT_MAX; lia.
Defined.

(** C4. For the inputs the driver generates, every element is in [1, 100],
    so every product is at most 10000: the [int] multiplication does not
    wrap, the store into [data_t] does not truncate, and both kernels leave
    the exact product in their result vector, for any vector size [n] and
    any index [i] in [0, n). *)
Theorem C4_driver_products_do_not_overflow (n i : Z) (w : world) :
  0 <= i < n -> n <= INT_MAX ->
  exists bs w' x y ws wh,
    setup_vectors n w = Ok bs w'
    /\ load (vector_a bs) i w' = Ok x w'
    /\ load (vector_b bs) i w' = Ok y w'
    /\ 1 <= x <= 100 /\ 1 <= y <= 100 /\ x * y <= 10000
    /\ int_mul x y = x * y
    /\ to_data (int_mul x y) = x * y
    /\ software_vector_multiply (vector_a bs) (vector_b bs) (sw_result bs) n w'
       = Ok tt ws
    /\ load (sw_result bs) i ws = Ok (x * y) ws
    /\ hardware_vector_multiply (vector_a bs) (vector_b bs) (hw_result bs) n w'
       = Ok tt wh
    /\ load (hw_result bs) i wh = Ok (x * y) wh.
Proof.
  intros Hi Hn.
  destruct (driver_setup n w ltac:(lia))
    as (a & b & hw & sw & Hab & Hah & Has & Hbh & Hbs & Hhs & Hrun).
  set (U := replicate (Z.to_nat n) (@None Z)) in *.
  set (w' := set_heap _ w) in *.
  assert (HU : length U = Z.to_nat n) by apply length_replicate.
  assert (Ha : heap w' !! a = Some (Some <$> inputs_a n)) by apply four_a.
  assert (Hb : heap w' !! b = Some (Some <$> inputs_b n))
    by (apply four_b; assumption).
  assert (Hhw : heap w' !! hw = Some U) by (apply four_hw; assumption).
  assert (Hsw : heap w' !! sw = Some U) by (apply four_sw; assumption).
  assert (Hx := input_a_range i ltac:(lia)).
  assert (Hy := input_b_range n i Hi Hn).
  assert (Hxy : 1 <= input_a i * input_b n i <= 10000) by nia.
  assert (HX := inputs_a_length n). assert (HY := inputs_b_length n).
  assert (Hmul : int_mul (input_a i) (input_b n i) = input_a i * input_b n i).
  { apply wrap_int_small. unfold INT_MIN, INT_MAX. lia. }
  assert (Hmod : (input_a i * input_b n i) mod 65536 = input_a i * input_b n i)
    by (apply Z.mod_small; lia).
  exists (bufs a b hw sw), w', (input_a i), (input_b n i),
    (multiplied sw (inputs_a n) (inputs_b n) U w' n),
    (set_slept (slept w' + 1) (multiplied hw (inputs_a n) (inputs_b n) U w' n)).
  cbn [vector_a vector_b hw_result sw_result bufs].
  split; [exact Hrun|].
  split.
  { eapply load_ok; [exact Ha | lia |].
    rewrite list_lookup_fmap, inputs_a_lookup by lia. reflexivity. }
  split.
  { eapply load_ok; [exact Hb | lia |].
    rewrite list_lookup_fmap, inputs_b_lookup by lia. reflexivity. }
  do 3 (split; [lia|]).
  split; [exact Hmul|].
  split; [rewrite to_data_int_mul; exact Hmod|].
  split.
  { apply (software_vector_multiply_run a b sw (inputs_a n) (inputs_b n) U n w');
      auto; lia. }
  split.
  { rewrite <- Hmod at 1.
    apply (load_multiplied sw); try lia;
      first [apply inputs_a_lookup | apply inputs_b_lookup]; lia. }
  split.
  { unfold hardware_vector_multiply.
    rewrite (hardware_vector_multiply_when_run a b hw (inputs_a n)
               (inputs_b n) U n w'); auto; lia. }
  rewrite sleepless_load. rewrite <- Hmod at 1.
  rewrite (load_multiplied hw _ _ _ _ _ _ (input_a i) (input_b n i));
    try lia;
    first [reflexivity | apply inputs_a_lookup | apply inputs_b_lookup]; lia.
Qed.

Lemma C4_products_witness :
  exists bs w' x y ws wh,
    setup_vectors 250 sample_world
    = Ok bs w'
    /\ load (vector_a bs) 199 w' = Ok x w'
    /\ load (vector_b bs) 199 w' = Ok y w'
    /\ 1 <= x <= 100 /\ 1 <= y <= 100 /\ x * y <= 10000
    /\ int_mul x y = x * y
    /\ to_data (int_mul x y) = x * y
    /\ software_vector_multiply (vector_a bs) (vector_b bs) (sw_result bs) 250 w'
       = Ok tt ws
    /\ load (sw_result bs) 199 ws = Ok (x * y) ws
    /\ hardware_vector_multiply (vector_a bs) (vector_b bs) (hw_result bs) 250 w'
       = Ok tt wh
    /\ load (hw_result bs) 199 wh = Ok (x * y) wh.
Proof.
  apply (C4_driver_products_do_not_overflow 250 199 sample_world);
    unfold INT_MAX; lia.
Defined.

(** C5. The verification compares the two result vectors element by
    element, in index order, for equality.  If no element below [n]
    differs, the flag stays 1 and nothing is printed.  If [k] is the first
    index where they differ, the loop prints that index with both values,
    returns with the flag 0 and stops there: nothing is asked of the cells
    above [k], which are not read.  When every cell below [n] is written,
    one of the two cases applies. *)
Theorem C5_verification_reports_first_mismatch (w : world) (bs : buffers)
    (p q : block) (ch cs : list (option Z)) (n : Z) :
  hw_result bs = Ptr p -> sw_result bs = Ptr q ->
  heap w !! p = Some ch -> heap w !! q = Some cs ->
  0 <= n <= INT_MAX ->
  ((forall i, 0 <= i < n -> exists v, cells_at ch cs i v v) ->
   verify_results bs n w = Ok 1 w)
  /\ (forall k h s,
        0 <= k < n ->
        (forall i, 0 <= i < k -> exists v, cells_at ch cs i v v) ->
        cells_at ch cs k h s -> h <> s ->
        verify_results bs n w = Ok 0 (emit [mismatch_line k h s] w))
  /\ ((forall i, 0 <= i < n -> exists h s, cells_at ch cs i h s) ->
      (forall i, 0 <= i < n -> exists v, cells_at ch cs i v v)
      \/ exists k h s,
           0 <= k < n /\ cells_at ch cs k h s /\ h <> s
           /\ forall i, 0 <= i < k -> exists v, cells_at ch cs i v v).
Proof.
  intros Hp Hq Hch Hcs [Hn Hmax]. rewrite verify_results_unfold. repeat split.
  - intros Heq.
    apply (compare_all_equal bs p q ch cs w n Hmax Hp Hq Hch Hcs); [lia | lia |].
    intros i Hi. apply Heq. lia.
  - intros k h s Hk Heq Hat Hne.
    replace (mismatch_line k h s)
      with (mismatch_line (0 + Z.of_nat (Z.to_nat k)) h s) by (f_equal; lia).
    apply (compare_first_mismatch bs p q ch cs w n Hmax Hp Hq Hch Hcs);
      [lia | lia | lia | | | exact Hne].
    + intros i Hi. apply Heq. lia.
    + replace (0 + Z.of_nat (Z.to_nat k)) with k by lia. exact Hat.
  - intros Hinit.
    destruct (compare_total ch cs (Z.to_nat n) 0 ltac:(lia)) as [Hall | Hdiff].
    + intros i Hi. apply Hinit. lia.
    + left. intros i Hi. apply Hall. lia.
    + right. destruct Hdiff as (k & h & s & Hk & Hat & Hne & Hbelow).
      exists k, h, s. repeat split; first [lia | apply Hat | exact Hne | idtac].
      exact Hbelow.
Qed.

Lemma C5_first_mismatch_witness :
  ((forall i, 0 <= i < 3 ->
      exists v, cells_at [Some 5; Some 7] [Some 5; Some 8; None] i v v) ->
   verify_results (Buffers NULL NULL (Ptr 1) (Ptr 2)) 3 mismatch_world
   = Ok 1 mismatch_world)
  /\ (forall k h s,
        0 <= k < 3 ->
        (forall i, 0 <= i < k ->
           exists v, cells_at [Some 5; Some 7] [Some 5; Some 8; None] i v v) ->
        cells_at [Some 5; Some 7] [Some 5; Some 8; None] k h s -> h <> s ->
        verify_results (Buffers NULL NULL (Ptr 1) (Ptr 2)) 3 mismatch_world
        = Ok 0 (emit [mismatch_line k h s] mismatch_world))
  /\ ((forall i, 0 <= i < 3 ->
         exists h s, cells_at [Some 5; Some 7] [Some 5; Some 8; None] i h s) ->
      (forall i, 0 <= i < 3 ->
         exists v, cells_at [Some 5; Some 7] [Some 5; Some 8; None] i v v)
      \/ exists k h s,
           0 <= k < 3 /\ cells_at [Some 5; Some 7] [Some 5; Some 8; None] k h s
           /\ h <> s
           /\ forall i, 0 <= i < k ->
                exists v, cells_at [Some 5; Some 7] [Some 5; Some 8; None] i v v).
Proof.
  apply (C5_verification_reports_first_mismatch mismatch_world
           (Buffers NULL NULL (Ptr 1) (Ptr 2)) 1%positive 2%positive);
    first [reflexivity | unfold INT_MAX; lia].
Defined.

(** C6. A mismatch between the two kernel variants is reported and
    nothing more.  The two kernels of the source never disagree, so the
    statement is about the program with its kernels replaced by variants
    that store any value [cell i x y] whatever in place of the product: the
    text of [main], [run_performance_test] and the kernels with that one
    expression as a parameter, which at the product is the program itself
    (the four equations).  Whatever the two variants compute, and so
    whatever the flags [match8] and [match1024] of the two comparisons,
    [main] runs all its steps in every world and returns the status 0:
    the first benchmark prints its mismatch line, if any, and its report,
    the second benchmark does the same, and the scaling table follows.
    Each flag is 1 with no line printed when the two result vectors are
    equal, and 0 with the one line of the first differing index when they
    are not; the report says "match" or "do not match" accordingly. *)
Theorem C6_mismatch_does_not_abort (cell_hw cell_sw : Z -> Z -> Z -> Z)
    (w : world) :
  main = main_with hardware_vector_multiply software_vector_multiply
  /\ run_performance_test
     = run_performance_test_with hardware_vector_multiply software_vector_multiply
  /\ hardware_vector_multiply = hardware_variant product_cell
  /\ software_vector_multiply = software_variant product_cell
  /\ exists match8 lines8 match1024 lines1024,
       main_with (hardware_variant cell_hw) (software_variant cell_sw) w
       = Ok 0 (set_ticks (ticks w + 8)
                 (set_slept (slept w + 2 * NUM_TESTS)
                    (emit (main_output_with (reading w)
                             match8 lines8 match1024 lines1024) w)))
       /\ verdict
            (variant_cells cell_hw (inputs_a VECTOR_SIZE) (inputs_b VECTOR_SIZE))
            (variant_cells cell_sw (inputs_a VECTOR_SIZE) (inputs_b VECTOR_SIZE))
            match8 lines8
       /\ verdict
            (variant_cells cell_hw (inputs_a LARGE_VECTOR_SIZE)
               (inputs_b LARGE_VECTOR_SIZE))
            (variant_cells cell_sw (inputs_a LARGE_VECTOR_SIZE)
               (inputs_b LARGE_VECTOR_SIZE))
            match1024 lines1024.
Proof.
  split; [symmetry; apply main_with_kernels|].
  split; [symmetry; apply run_performance_test_with_kernels|].
  split; [symmetry; apply hardware_variant_product|].
  split; [symmetry; apply software_variant_product|].
  apply main_with_run.
Qed.

(** C7. The scaling report goes through exactly the sizes 8, 16, 32, ...,
    4096 (its loop takes ten rounds, neither more nor fewer) and prints,
    for each, the double [size / (1.0 + 8.0 / size)]: the rational
    [size / (1 + 8 / size)] rounded once, within [2^-42] of it.  The entry
    for 8 is exactly 4, printed 4.00 with two decimals; the entry for 4096
    is within 0.02 of 4088. *)
Theorem C7_scaling_table :
  (forall w, show_scaling_performance w = Ok tt (emit scaling_report w))
  /\ (forall w, scaling_loop 10 8 w
                = Ok tt (emit (table_row <$> scaling_sizes) w))
  /\ (forall w, scaling_loop 9 8 w = Fault OutOfFuel)
  /\ scaling_report
     = [ Printf "\nScaling Performance (simulated):\n" [];
         Printf "----------------------------\n" [];
         Printf "| Vector Size | Speedup   |\n" [];
         Printf "----------------------------\n" [] ]
       ++ ((fun size =>
              Printf "| %-11d | %-9.2f |\n"
                [ArgInt size; ArgDouble (theoretical_speedup size)])
           <$> [8; 16; 32; 64; 128; 256; 512; 1024; 2048; 4096])
       ++ [ Printf "----------------------------\n" [];
            Printf "\nNote: This shows theoretical scaling based on\n" [];
            Printf "parallelism. Actual hardware would have additional\n" [];
            Printf "factors like memory bandwidth and transfer overhead.\n" [] ]
  /\ Forall (fun size =>
               double_near (theoretical_speedup size) (speedup_formula size)
                 (1 # 2 ^ 42))
       [8; 16; 32; 64; 128; 256; 512; 1024; 2048; 4096]
  /\ theoretical_speedup 8 = 4%float
  /\ double_near (theoretical_speedup 4096) 4088 (2 # 100).
Proof.
  split; [exact show_scaling_performance_run|].
  split; [intros w; apply scaling_loop_rounds; lia|].
  split; [exact scaling_loop_nine_rounds|].
  split; [reflexivity|].
  split.
  { repeat constructor;
      (eapply double_near_compute; [vm_compute; reflexivity | vm_compute; reflexivity]). }
  split; [vm_compute; reflexivity|].
  eapply double_near_compute; vm_compute; reflexivity.
Qed.

(** C8. [main] runs, in this order and whatever they print, the benchmark
    at the size 8, the benchmark at the size 1024 and the scaling report,
    and returns 0: in every world it ends, with the status 0, in the world
    reached by running the three one after the other; its output is
    [main_output], the report of the first benchmark, then that of the
    second, then the table; and the memory is as it was at the start. *)
Theorem C8_main_sequence (w : world) :
  exists w1 w2 w3,
    run_performance_test VECTOR_SIZE
      (emit [ Printf "Vector Multiplication Performance Test\n" [];
              Printf "======================================\n\n" [];
              Printf "Running tests with standard vector size (%d)...\n"
                [ArgInt VECTOR_SIZE] ] w) = Ok tt w1
    /\ run_performance_test LARGE_VECTOR_SIZE
         (emit [ Printf "Running tests with large vector size (%d)...\n"
                   [ArgInt LARGE_VECTOR_SIZE] ] w1) = Ok tt w2
    /\ show_scaling_performance w2 = Ok tt w3
    /\ main w = Ok 0 w3
    /\ out w3 = out w ++ main_output (reading w)
    /\ heap w3 = heap w
    /\ VECTOR_SIZE = 8 /\ LARGE_VECTOR_SIZE = 1024.
Proof.
  assert (H8 : 0 <= VECTOR_SIZE <= INT_MAX)
    by (unfold VECTOR_SIZE, INT_MAX; lia).
  assert (H1024 : 0 <= LARGE_VECTOR_SIZE <= INT_MAX)
    by (unfold LARGE_VECTOR_SIZE, INT_MAX; lia).
  pose (wa := emit [ Printf "Vector Multiplication Performance Test\n" [];
                     Printf "======================================\n\n" [];
                     Printf "Running tests with standard vector size (%d)...\n"
                       [ArgInt VECTOR_SIZE] ] w).
  pose (w1 := benchmarked VECTOR_SIZE wa).
  pose (wb := emit [ Printf "Running tests with large vector size (%d)...\n"
                       [ArgInt LARGE_VECTOR_SIZE] ] w1).
  pose (w2 := benchmarked LARGE_VECTOR_SIZE wb).
  assert (E1 : run_performance_test VECTOR_SIZE wa = Ok tt w1)
    by exact (run_performance_test_run VECTOR_SIZE wa H8).
  assert (E2 : run_performance_test LARGE_VECTOR_SIZE wb = Ok tt w2)
    by exact (run_performance_test_run LARGE_VECTOR_SIZE wb H1024).
  assert (E3 := show_scaling_performance_run w2).
  exists w1, w2, (emit scaling_report w2).
  split; [exact E1|]. split; [exact E2|]. split; [exact E3|].
  split.
  { unfold main.
    do 3 (erewrite bind_ok by apply printf_run).
    rewrite !emit_emit. change (emit _ w) with wa.
    erewrite bind_ok by exact E1.
    erewrite bind_ok by apply printf_run.
    erewrite bind_ok by exact E2.
    erewrite bind_ok by exact E3.
    reflexivity. }
  split.
  { subst w2 wb w1 wa. clear. destruct w as [h c t s o].
    cbv [benchmarked main_output emit reading set_ticks set_slept set_heap set_out
         heap clock ticks slept out].
    rewrite <- !app_assoc.
    replace (t + 4 + 0)%nat with (t + 4)%nat by lia.
    replace (t + 4 + 1)%nat with (t + 5)%nat by lia.
    replace (t + 4 + 2)%nat with (t + 6)%nat by lia.
    replace (t + 4 + 3)%nat with (t + 7)%nat by lia.
    reflexivity. }
  split; [reflexivity|]. split; reflexivity.
Qed.

(** C9, amended. With a result block apart from the input blocks, both
    kernels leave the two input vectors unchanged: run on input blocks
    [a], [b] and a result block [r] apart from them, each returns with [a]
    and [b] holding their contents of before the call, and with every
    block other than [r] as it was.  Whatever the pointers, a kernel that
    returns has written no block but the one [result] points to; so an
    input is changed only when [result] points to it. *)
Theorem C9_kernels_leave_inputs_unchanged (w : world) (a b r : block)
    (xs ys : list Z) (cells : list (option Z)) (n : Z) :
  heap w !! a = Some (Some <$> xs) ->
  heap w !! b = Some (Some <$> ys) ->
  heap w !! r = Some cells ->
  r <> a -> r <> b ->
  length xs = Z.to_nat n -> length ys = Z.to_nat n ->
  length cells = Z.to_nat n ->
  0 <= n <= INT_MAX ->
  (exists ws wh,
     software_vector_multiply (Ptr a) (Ptr b) (Ptr r) n w = Ok tt ws
     /\ hardware_vector_multiply (Ptr a) (Ptr b) (Ptr r) n w = Ok tt wh
     /\ heap ws !! a = Some (Some <$> xs) /\ heap ws !! b = Some (Some <$> ys)
     /\ heap wh !! a = Some (Some <$> xs) /\ heap wh !! b = Some (Some <$> ys)
     /\ forall p, p <> r ->
          heap ws !! p = heap w !! p /\ heap wh !! p = heap w !! p)
  /\ forall pa pb pr m,
       writes_only pr (software_vector_multiply pa pb pr m)
       /\ writes_only pr (hardware_vector_multiply pa pb pr m).
Proof.
  intros Ha Hb Hr Hra Hrb Hxs Hys Hcells [Hn Hmax]. split.
  - exists (multiplied r xs ys cells w n),
      (set_slept (slept w + 1) (multiplied r xs ys cells w n)).
    split; [apply (software_vector_multiply_run a b r xs ys cells n w); auto; lia|].
    split.
    { unfold hardware_vector_multiply.
      rewrite (hardware_vector_multiply_when_run a b r xs ys cells n w); auto; lia. }
    unfold multiplied. cbn [heap set_heap set_slept].
    rewrite !lookup_insert_ne by done. repeat split; try assumption;
      apply lookup_insert_ne; congruence.
  - intros pa pb pr m. split.
    + apply writes_only_software_vector_multiply.
    + apply writes_only_hardware_vector_multiply_when.
Qed.

Lemma C9_inputs_unchanged_witness :
  (exists ws wh,
     software_vector_multiply (Ptr 1) (Ptr 2) (Ptr 3) 2 sample_world = Ok tt ws
     /\ hardware_vector_multiply (Ptr 1) (Ptr 2) (Ptr 3) 2 sample_world = Ok tt wh
     /\ heap ws !! 1%positive = Some (Some <$> [300; 2])
     /\ heap ws !! 2%positive = Some (Some <$> [300; 3])
     /\ heap wh !! 1%positive = Some (Some <$> [300; 2])
     /\ heap wh !! 2%positive = Some (Some <$> [300; 3])
     /\ forall p, p <> 3%positive ->
          heap ws !! p = heap sample_world !! p
          /\ heap wh !! p = heap sample_world !! p)
  /\ forall pa pb pr m,
       writes_only pr (software_vector_multiply pa pb pr m)
       /\ writes_only pr (hardware_vector_multiply pa pb pr m).
Proof.
  apply (C9_kernels_leave_inputs_unchanged sample_world 1%positive 2%positive
           3%positive [300; 2] [300; 3] [None; None] 2);
    first [reflexivity | unfold INT_MAX; lia].
Defined.

(** C9 as stated, for every call: it fails on a call in place.  With
    [result] pointing to [vector_a], both kernels return and
    [vector_a[0]], 300 before the call, is 24464 after it
    (300 * 300 modulo 65536). *)
Lemma C9_in_place_counterexample :
  exists ws wh,
    software_vector_multiply (Ptr 1) (Ptr 2) (Ptr 1) 2 sample_world = Ok tt ws
    /\ hardware_vector_multiply (Ptr 1) (Ptr 2) (Ptr 1) 2 sample_world = Ok tt wh
    /\ load (Ptr 1) 0 sample_world = Ok 300 sample_world
    /\ load (Ptr 1) 0 ws = Ok 24464 ws
    /\ load (Ptr 1) 0 wh = Ok 24464 wh.
Proof.
  eexists _, _. split; [vm_compute; reflexivity|].
  split; [vm_compute; reflexivity|].
  repeat split; vm_compute; reflexivity.
Qed.

(** C10. The result of [hardware_vector_multiply] does not depend on the
    flag [SIMULATION_MODE]: for any two values of the flag and any
    arguments, the two branches end with the same memory, the same output
    and the same clock, or with the same fault; they differ in the sleep
    counter alone, which the branch taken for a non-zero flag advances by
    one microsecond. *)
Theorem C10_result_independent_of_simulation_mode (mode mode' : Z)
    (a b r : ptr) (n : Z) (w : world) :
  with_slept 0 (hardware_vector_multiply_when mode a b r n w)
  = with_slept 0 (hardware_vector_multiply_when mode' a b r n w)
  /\ hardware_vector_multiply_when mode a b r n w
     = (if mode =? 0 then software_vector_multiply a b r n w
        else with_slept (slept w + 1) (software_vector_multiply a b r n w)).
Proof.
  rewrite !hardware_vector_multiply_when_unfold. split.
  - destruct (negb (mode =? 0)), (negb (mode' =? 0));
      rewrite ?with_slept_twice; reflexivity.
  - destruct (mode =? 0); reflexivity.
Qed.

(** * Further properties of the code *)

(** ** The kernels on the same vector or on separate ones *)

Lemma products_wrapped xs ys : products xs ys = wrapped_products xs ys.
Proof.
  unfold products, wrapped_products. revert ys.
  induction xs as [|x xs IH]; intros [|y ys]; simpl; try reflexivity.
  rewrite to_data_int_mul, IH. reflexivity.
Qed.

(** The cells not yet written are those of the block at the start. *)
Lemma filled_lookup_ge (vals : list Z) (cells : list (option Z)) k (j : nat) :
  0 <= k -> k <= Z.of_nat (length vals) -> (Z.to_nat k <= j)%nat ->
  filled vals cells k !! j = cells !! j.
Proof.
  intros Hk Hlen Hj. unfold filled.
  rewrite lookup_app_r; rewrite length_fmap, length_take;
    [|lia]. rewrite lookup_drop. f_equal. lia.
Qed.

Lemma filled_length (vals : list Z) (cells : list (option Z)) k :
  0 <= k -> k <= Z.of_nat (length vals) -> k <= Z.of_nat (length cells) ->
  length (filled vals cells k) = length cells.
Proof. intros. unfold filled. apply fill_length; lia. Qed.

Section KernelAliased.
Variables (a b r : block) (xs ys : list Z) (cells : list (option Z)).
Variables (n : Z) (w : world).
Hypothesis Ha : heap w !! a = Some (Some <$> xs).
Hypothesis Hb : heap w !! b = Some (Some <$> ys).
Hypothesis Hr : heap w !! r = Some cells.
Hypothesis Hn : 0 <= n.
Hypothesis Hmax : n <= INT_MAX.
Hypothesis Hxs : n <= Z.of_nat (length xs).
Hypothesis Hys : n <= Z.of_nat (length ys).
Hypothesis Hcells : n <= Z.of_nat (length cells).

Local Abbreviation mult := (multiplied r xs ys cells w).

(** An input cell at [i] still holds its value when the cells below [i]
    of the result are written, also when the input is the result block. *)
Lemma load_input_aliased p (zs : list Z) i z :
  heap w !! p = Some (Some <$> zs) -> 0 <= i < n ->
  zs !! Z.to_nat i = Some z ->
  load (Ptr p) i (mult i) = Ok z (mult i).
Proof.
  intros Hp Hi Hz. unfold multiplied.
  destruct (decide (p = r)) as [->|Hne].
  - assert (Hc : cells = Some <$> zs) by congruence.
    eapply load_ok; [apply lookup_insert_eq | lia |].
    rewrite filled_lookup_ge by (rewrite ?products_length; lia).
    rewrite Hc, list_lookup_fmap, Hz. reflexivity.
  - eapply load_ok; [|lia|].
    + cbn [heap set_heap]. rewrite lookup_insert_ne by done. exact Hp.
    + rewrite list_lookup_fmap, Hz. reflexivity.
Qed.

Lemma multiply_step_aliased i :
  0 <= i < n ->
  (x ← load (Ptr a) i; y ← load (Ptr b) i;
   store (Ptr r) i (to_data (int_mul x y))) (mult i)
  = Ok tt (mult (i + 1)).
Proof.
  intros Hi.
  destruct (lookup_lt_is_Some_2 xs (Z.to_nat i) ltac:(lia)) as [x Hx].
  destruct (lookup_lt_is_Some_2 ys (Z.to_nat i) ltac:(lia)) as [y Hy].
  assert (Hp := products_lookup _ _ _ _ _ Hx Hy).
  rewrite (bind_ok _ _ _ x (mult i)) by (eapply load_input_aliased; eauto).
  rewrite (bind_ok _ _ _ y (mult i)) by (eapply load_input_aliased; eauto).
  erewrite store_ok.
  2:{ unfold multiplied. cbn [heap set_heap]. apply lookup_insert_eq. }
  2:{ rewrite filled_length by (rewrite ?products_length; lia). lia. }
  unfold multiplied, filled. cbn [heap set_heap]. unfold set_heap.
  cbn [heap clock ticks slept out]. do 2 f_equal.
  rewrite insert_insert_eq. f_equal.
  replace (Z.to_nat (i + 1)) with (S (Z.to_nat i)) by lia.
  apply fill_step; [exact Hp | lia].
Qed.

Lemma software_vector_multiply_aliased :
  software_vector_multiply (Ptr a) (Ptr b) (Ptr r) n w = Ok tt (mult n).
Proof.
  unfold software_vector_multiply.
  edestruct (for_range_inv (fun i w' => w' = mult i))
    with (lo := 0) (hi := n) (w := w) as (w' & Hrun & ->);
    [unfold INT_MIN; lia | exact Hn | exact Hmax | | | exact Hrun].
  - intros i w1 Hi ->. eexists.
    split; [apply multiply_step_aliased; lia | reflexivity].
  - unfold multiplied. rewrite filled_0, insert_id by exact Hr.
    symmetry. apply set_heap_id.
Qed.

Lemma hardware_vector_multiply_aliased :
  hardware_vector_multiply (Ptr a) (Ptr b) (Ptr r) n w
  = Ok tt (set_slept (slept w + 1) (mult n)).
Proof.
  unfold hardware_vector_multiply.
  rewrite hardware_vector_multiply_when_unfold, software_vector_multiply_aliased.
  reflexivity.
Qed.
End KernelAliased.

Lemma products_comm xs ys : products xs ys = products ys xs.
Proof.
  unfold products. revert ys.
  induction xs as [|x xs IH]; intros [|y ys]; simpl; try reflexivity.
  rewrite IH. unfold int_mul. rewrite (Z.mul_comm x y). reflexivity.
Qed.

(** Filling again what is filled changes nothing. *)
Lemma filled_idem (vals : list Z) (cells : list (option Z)) k :
  0 <= k -> k <= Z.of_nat (length vals) ->
  filled vals (filled vals cells k) k = filled vals cells k.
Proof.
  intros Hk Hlen. unfold filled. f_equal.
  rewrite drop_app_length'; [reflexivity|].
  rewrite length_fmap, length_take. lia.
Qed.

(** X1. The kernels work on the first [size] cells, and also in place.
    When [vector_a], [vector_b] and [result] each point to the start of a
    vector of at least [size] cells, the inputs written, and any two of
    the three are either the same vector or separate vectors, both
    kernels return; the first [size] cells of the result vector hold the
    products of the inputs as they were before the call, modulo 65536;
    its other cells, and every other vector, are as they were.  A kernel
    can therefore multiply a vector in place, or square it.  (A result
    that overlaps an input at an offset is another matter, and is not
    covered: a pointer here is the start of a block.) *)
Theorem kernels_in_place_and_prefix (w : world) (a b r : block)
    (xs ys : list Z) (cells : list (option Z)) (n : Z) :
  heap w !! a = Some (Some <$> xs) ->
  heap w !! b = Some (Some <$> ys) ->
  heap w !! r = Some cells ->
  0 <= n <= INT_MAX ->
  n <= Z.of_nat (length xs) -> n <= Z.of_nat (length ys) ->
  n <= Z.of_nat (length cells) ->
  software_vector_multiply (Ptr a) (Ptr b) (Ptr r) n w
  = Ok tt (set_heap
             (<[r := (Some <$> take (Z.to_nat n) (wrapped_products xs ys))
                     ++ drop (Z.to_nat n) cells]> (heap w)) w)
  /\ hardware_vector_multiply (Ptr a) (Ptr b) (Ptr r) n w
     = Ok tt (set_slept (slept w + 1)
                (set_heap
                   (<[r := (Some <$> take (Z.to_nat n) (wrapped_products xs ys))
                           ++ drop (Z.to_nat n) cells]> (heap w)) w)).
Proof.
  intros Ha Hb Hr [Hn Hmax] Hxs Hys Hcells.
  rewrite <- products_wrapped. split.
  - apply (software_vector_multiply_aliased a b r xs ys cells n w); assumption.
  - apply (hardware_vector_multiply_aliased a b r xs ys cells n w); assumption.
Qed.

Lemma kernels_in_place_and_prefix_witness :
  software_vector_multiply (Ptr 1) (Ptr 2) (Ptr 1) 1 sample_world
  = Ok tt (set_heap
             (<[1%positive :=
                  (Some <$> take (Z.to_nat 1) (wrapped_products [300; 2] [300; 3]))
                  ++ drop (Z.to_nat 1) [Some 300; Some 2]]> (heap sample_world))
             sample_world)
  /\ hardware_vector_multiply (Ptr 1) (Ptr 2) (Ptr 1) 1 sample_world
     = Ok tt (set_slept (slept sample_world + 1)
                (set_heap
                   (<[1%positive :=
                        (Some <$> take (Z.to_nat 1)
                                    (wrapped_products [300; 2] [300; 3]))
                        ++ drop (Z.to_nat 1) [Some 300; Some 2]]>
                      (heap sample_world))
                   sample_world)).
Proof.
  apply (kernels_in_place_and_prefix sample_world 1%positive 2%positive
           1%positive [300; 2] [300; 3] [Some 300; Some 2] 1);
    first [reflexivity | unfold INT_MAX; simpl; lia].
Defined.

(** X2. The kernels are commutative in their inputs: with the two input
    pointers exchanged they end in the same world. *)
Theorem kernels_commute (w : world) (a b r : block)
    (xs ys : list Z) (cells : list (option Z)) (n : Z) :
  heap w !! a = Some (Some <$> xs) ->
  heap w !! b = Some (Some <$> ys) ->
  heap w !! r = Some cells ->
  0 <= n <= INT_MAX ->
  n <= Z.of_nat (length xs) -> n <= Z.of_nat (length ys) ->
  n <= Z.of_nat (length cells) ->
  (exists w', software_vector_multiply (Ptr a) (Ptr b) (Ptr r) n w = Ok tt w'
              /\ software_vector_multiply (Ptr b) (Ptr a) (Ptr r) n w = Ok tt w')
  /\ (exists w', hardware_vector_multiply (Ptr a) (Ptr b) (Ptr r) n w = Ok tt w'
                 /\ hardware_vector_multiply (Ptr b) (Ptr a) (Ptr r) n w = Ok tt w').
Proof.
  intros Ha Hb Hr [Hn Hmax] Hxs Hys Hcells. split; eexists; split.
  - apply (software_vector_multiply_aliased a b r xs ys cells n w); assumption.
  - rewrite (software_vector_multiply_aliased b a r ys xs cells n w) by assumption.
    unfold multiplied. rewrite products_comm. reflexivity.
  - apply (hardware_vector_multiply_aliased a b r xs ys cells n w); assumption.
  - rewrite (hardware_vector_multiply_aliased b a r ys xs cells n w) by assumption.
    unfold multiplied. rewrite products_comm. reflexivity.
Qed.

Lemma kernels_commute_witness :
  (exists w',
     software_vector_multiply (Ptr 1) (Ptr 2) (Ptr 3) 2 sample_world = Ok tt w'
     /\ software_vector_multiply (Ptr 2) (Ptr 1) (Ptr 3) 2 sample_world = Ok tt w')
  /\ (exists w',
        hardware_vector_multiply (Ptr 1) (Ptr 2) (Ptr 3) 2 sample_world = Ok tt w'
        /\ hardware_vector_multiply (Ptr 2) (Ptr 1) (Ptr 3) 2 sample_world
           = Ok tt w').
Proof.
  apply (kernels_commute sample_world 1%positive 2%positive 3%positive
           [300; 2] [300; 3] [None; None] 2);
    first [reflexivity | unfold INT_MAX; simpl; lia].
Defined.

(** ** Calling a kernel again *)

(** On a result block that already holds the products, apart from the
    inputs, a kernel changes nothing. *)
Lemma software_vector_multiply_again a b r xs ys cells n w :
  heap w !! a = Some (Some <$> xs) ->
  heap w !! b = Some (Some <$> ys) ->
  heap w !! r = Some (filled (products xs ys) cells n) ->
  0 <= n <= INT_MAX ->
  n <= Z.of_nat (length xs) -> n <= Z.of_nat (length ys) ->
  n <= Z.of_nat (length cells) ->
  software_vector_multiply (Ptr a) (Ptr b) (Ptr r) n w = Ok tt w.
Proof.
  intros Ha Hb Hr [Hn Hmax] Hxs Hys Hcells.
  rewrite (software_vector_multiply_aliased a b r xs ys
             (filled (products xs ys) cells n) n w); try assumption.
  - unfold multiplied.
    rewrite filled_idem by (rewrite ?products_length; lia).
    rewrite insert_id by exact Hr. rewrite set_heap_id. reflexivity.
  - rewrite filled_length by (rewrite ?products_length; lia). exact Hcells.
Qed.

(** X3. Calling a kernel again changes nothing more: with a result block
    apart from the inputs, [k >= 1] calls in a row, as in the timed loops
    of the driver, leave the memory one call leaves; the hardware kernel
    has then slept [k] microseconds. *)
Theorem repeated_kernel_calls (w : world) (a b r : block)
    (xs ys : list Z) (cells : list (option Z)) (n k : Z) :
  heap w !! a = Some (Some <$> xs) ->
  heap w !! b = Some (Some <$> ys) ->
  heap w !! r = Some cells ->
  r <> a -> r <> b ->
  0 <= n <= INT_MAX ->
  n <= Z.of_nat (length xs) -> n <= Z.of_nat (length ys) ->
  n <= Z.of_nat (length cells) ->
  1 <= k <= INT_MAX ->
  for_range 0 k (fun _ => software_vector_multiply (Ptr a) (Ptr b) (Ptr r) n) w
  = software_vector_multiply (Ptr a) (Ptr b) (Ptr r) n w
  /\ for_range 0 k (fun _ => hardware_vector_multiply (Ptr a) (Ptr b) (Ptr r) n) w
     = with_slept (slept w + k)
         (software_vector_multiply (Ptr a) (Ptr b) (Ptr r) n w).
Proof.
  intros Ha Hb Hr Hra Hrb Hn Hxs Hys Hcells Hk.
  assert (Hone := software_vector_multiply_aliased a b r xs ys cells n w
                    Ha Hb Hr (proj1 Hn) (proj2 Hn) Hxs Hys Hcells).
  set (W := multiplied r xs ys cells w n) in *.
  assert (HWa : heap W !! a = Some (Some <$> xs)).
  { unfold W, multiplied. cbn [heap set_heap]. rewrite lookup_insert_ne by done.
    exact Ha. }
  assert (HWb : heap W !! b = Some (Some <$> ys)).
  { unfold W, multiplied. cbn [heap set_heap]. rewrite lookup_insert_ne by done.
    exact Hb. }
  assert (HWr : heap W !! r = Some (filled (products xs ys) cells n)).
  { unfold W, multiplied. cbn [heap set_heap]. apply lookup_insert_eq. }
  rewrite Hone. split.
  - edestruct (for_range_inv (fun j w' => w' = if j =? 0 then w else W)
                 (fun _ => software_vector_multiply (Ptr a) (Ptr b) (Ptr r) n))
      with (lo := 0) (hi := k) (w := w) as (w' & Hrun & ->);
      [unfold INT_MIN; lia | lia | lia | | reflexivity | ].
    + intros j w1 Hj ->. eexists. split; [|reflexivity].
      destruct (Z.eqb_spec (j + 1) 0); [lia|].
      destruct (Z.eqb_spec j 0); [exact Hone|].
      apply (software_vector_multiply_again a b r xs ys cells n W); assumption.
    + rewrite Hrun. destruct (Z.eqb_spec k 0); [lia | reflexivity].
  - edestruct (for_range_inv
                 (fun j w' => w' = if j =? 0 then w
                                   else set_slept (slept w + j) W)
                 (fun _ => hardware_vector_multiply (Ptr a) (Ptr b) (Ptr r) n))
      with (lo := 0) (hi := k) (w := w) as (w' & Hrun & ->);
      [unfold INT_MIN; lia | lia | lia | | reflexivity | ].
    + intros j w1 Hj ->. eexists. split; [|reflexivity].
      unfold hardware_vector_multiply.
      rewrite hardware_vector_multiply_when_unfold.
      change (negb (SIMULATION_MODE =? 0)) with true. cbv iota.
      destruct (Z.eqb_spec (j + 1) 0); [lia|].
      destruct (Z.eqb_spec j 0) as [->|Hj0].
      * rewrite Hone. reflexivity.
      * rewrite (software_vector_multiply_again a b r xs ys cells n
                   (set_slept (slept w + j) W)) by assumption.
        cbn [with_slept]. unfold set_slept. cbn [heap clock ticks slept out].
        do 2 f_equal. lia.
    + rewrite Hrun. destruct (Z.eqb_spec k 0); [lia | reflexivity].
Qed.

Lemma repeated_kernel_calls_witness :
  for_range 0 3
    (fun _ => software_vector_multiply (Ptr 1) (Ptr 2) (Ptr 3) 2) sample_world
  = software_vector_multiply (Ptr 1) (Ptr 2) (Ptr 3) 2 sample_world
  /\ for_range 0 3
       (fun _ => hardware_vector_multiply (Ptr 1) (Ptr 2) (Ptr 3) 2) sample_world
     = with_slept (slept sample_world + 3)
         (software_vector_multiply (Ptr 1) (Ptr 2) (Ptr 3) 2 sample_world).
Proof.
  apply (repeated_kernel_calls sample_world 1%positive 2%positive 3%positive
           [300; 2] [300; 3] [None; None] 2 3);
    first [reflexivity | unfold INT_MAX; simpl; lia].
Defined.

(** In place the second call multiplies again. *)
Example software_vector_multiply_twice_in_place :
  (software_vector_multiply (Ptr 1) (Ptr 2) (Ptr 1) 2;;
   software_vector_multiply (Ptr 1) (Ptr 2) (Ptr 1) 2) sample_world
  = Ok tt (set_heap (<[1%positive := [Some 64704; Some 18]]> (heap sample_world))
                    sample_world).
Proof. vm_compute. reflexivity. Qed.

(** ** Null pointers and empty vectors *)

Lemma load_world p i w v w' : load p i w = Ok v w' -> w' = w.
Proof.
  unfold load. destruct p as [|b]; [discriminate|].
  destruct (heap w !! b) as [cells|]; [|discriminate].
  destruct (i <? 0); [discriminate|].
  destruct (cells !! Z.to_nat i) as [[x|]|]; [|discriminate..].
  intros E. inversion E. reflexivity.
Qed.

(** The first round of a kernel, for a positive size. *)
Lemma software_vector_multiply_first a b r n w :
  0 < n ->
  software_vector_multiply a b r n w
  = match (x ← load a 0; y ← load b 0; store r 0 (to_data (int_mul x y))) w with
    | Ok _ w' =>
        for_loop (Z.to_nat (n - 1)) (fun i => i <? n) (fun i => int_add i 1)
          (fun i => x ← load a i; y ← load b i;
                    store r i (to_data (int_mul x y)))
          (int_add 0 1) w'
    | Fault f => Fault f
    end.
Proof.
  intros Hn. unfold software_vector_multiply, for_range.
  replace (Z.to_nat (n - 0)) with (S (Z.to_nat (n - 1))) by lia.
  rewrite for_loop_unfold. destruct (Z.ltb_spec 0 n); [|lia].
  rewrite bind_run. reflexivity.
Qed.

(** For a size of 0 or less the loop of a kernel has no round. *)
Lemma kernels_empty a b r n w :
  n <= 0 ->
  software_vector_multiply a b r n w = Ok tt w
  /\ hardware_vector_multiply a b r n w = Ok tt (set_slept (slept w + 1) w).
Proof.
  intros Hn.
  assert (Hs : software_vector_multiply a b r n w = Ok tt w)
    by (apply for_range_empty; lia).
  split; [exact Hs|].
  unfold hardware_vector_multiply.
  rewrite hardware_vector_multiply_when_unfold, Hs. reflexivity.
Qed.

(** X4. The kernels touch what their pointers point to exactly when the
    size is positive.  With a null pointer among the three: for a size of
    0 or less both kernels return, the software kernel without any effect
    and the hardware kernel having slept; for a positive size both stop on
    a fault in their first round. *)
Theorem kernels_null_pointer (a b r : ptr) (n : Z) (w : world) :
  a = NULL \/ b = NULL \/ r = NULL ->
  (n <= 0 ->
   software_vector_multiply a b r n w = Ok tt w
   /\ hardware_vector_multiply a b r n w = Ok tt (set_slept (slept w + 1) w))
  /\ (0 < n ->
      exists f, software_vector_multiply a b r n w = Fault f
                /\ hardware_vector_multiply a b r n w = Fault f).
Proof.
  intros Hnull. split.
  - apply kernels_empty.
  - intros Hn.
    assert (Hs : exists f, software_vector_multiply a b r n w = Fault f).
    { rewrite (software_vector_multiply_first a b r n w Hn), !bind_run.
      destruct Hnull as [-> | [-> | ->]].
      - exists NullDeref. reflexivity.
      - destruct (load a 0 w) as [x w1|f]; [|exists f; reflexivity].
        cbv beta iota. rewrite bind_run.
        exists NullDeref. reflexivity.
      - destruct (load a 0 w) as [x w1|f]; [|exists f; reflexivity].
        cbv beta iota. rewrite bind_run.
        destruct (load b 0 w1) as [y w2|f]; [|exists f; reflexivity].
        exists NullDeref. reflexivity. }
    destruct Hs as [f Hs]. exists f. split; [exact Hs|].
    unfold hardware_vector_multiply.
    rewrite hardware_vector_multiply_when_unfold, Hs. reflexivity.
Qed.

Lemma kernels_null_pointer_witness :
  (2 <= 0 ->
   software_vector_multiply (Ptr 1) NULL (Ptr 3) 2 sample_world
   = Ok tt sample_world
   /\ hardware_vector_multiply (Ptr 1) NULL (Ptr 3) 2 sample_world
      = Ok tt (set_slept (slept sample_world + 1) sample_world))
  /\ (0 < 2 ->
      exists f,
        software_vector_multiply (Ptr 1) NULL (Ptr 3) 2 sample_world = Fault f
        /\ hardware_vector_multiply (Ptr 1) NULL (Ptr 3) 2 sample_world = Fault f).
Proof.
  apply (kernels_null_pointer (Ptr 1) NULL (Ptr 3) 2 sample_world).
  right. left. reflexivity.
Defined.

(** ** What a kernel does not do *)

Lemma memory_only_ret {A} (x : A) : memory_only (mret x : M A).
Proof. intros w y w' E. inversion E. symmetry. apply set_heap_id. Qed.

Lemma memory_only_bind {A B} (m : M A) (k : A -> M B) :
  memory_only m -> (forall x, memory_only (k x)) -> memory_only (m ≫= k).
Proof.
  intros Hm Hk w y w'. rewrite bind_run.
  destruct (m w) as [x w1|f] eqn:E; [|discriminate].
  intros Hrun. rewrite (Hk x w1 y w' Hrun), (Hm w x w1 E). reflexivity.
Qed.

Lemma memory_only_load p i : memory_only (load p i).
Proof.
  intros w x w' E. apply load_world in E. subst w'. symmetry. apply set_heap_id.
Qed.

Lemma memory_only_store p i v : memory_only (store p i v).
Proof.
  intros w x w'. unfold store. destruct p as [|b]; [discriminate|].
  destruct (heap w !! b) as [cells|]; [|discriminate].
  destruct (_ || _); [discriminate|].
  intros E. inversion E. reflexivity.
Qed.

Lemma memory_only_for_loop fuel test step body :
  (forall i, memory_only (body i)) ->
  forall i, memory_only (for_loop fuel test step body i).
Proof.
  intros Hb. induction fuel as [|fuel IH]; intros i w x w';
    rewrite for_loop_unfold; destruct (test i);
    try discriminate;
    try (intros E; inversion E; symmetry; apply set_heap_id).
  apply (memory_only_bind (body i)
           (fun _ => for_loop fuel test step body (step i)));
    [apply Hb | intros _; apply IH].
Qed.

Lemma memory_only_software_vector_multiply a b r n :
  memory_only (software_vector_multiply a b r n).
Proof.
  apply memory_only_for_loop. intros i.
  apply memory_only_bind; [apply memory_only_load | intros x].
  apply memory_only_bind; [apply memory_only_load | intros y].
  apply memory_only_store.
Qed.

(** X5. Whatever its arguments, a kernel that returns has printed nothing
    and read no clock: the world after the software kernel is the world
    before but for the memory; the world after the hardware kernel is the
    world before but for the memory and one microsecond of sleep. *)
Theorem kernels_change_memory_only (a b r : ptr) (n : Z) (w : world) :
  match software_vector_multiply a b r n w with
  | Ok _ w' => w' = set_heap (heap w') w
  | Fault _ => True
  end
  /\ match hardware_vector_multiply a b r n w with
     | Ok _ w' => w' = set_slept (slept w + 1) (set_heap (heap w') w)
     | Fault _ => True
     end.
Proof.
  assert (Hs := memory_only_software_vector_multiply a b r n w).
  unfold hardware_vector_multiply.
  rewrite hardware_vector_multiply_when_unfold.
  change (negb (SIMULATION_MODE =? 0)) with true. cbv iota.
  destruct (software_vector_multiply a b r n w) as [[] w'|f]; [|split; exact I].
  specialize (Hs tt w' eq_refl). split; [exact Hs|].
  cbn [with_slept]. rewrite Hs at 1. reflexivity.
Qed.

(** ** Vectors shorter than the size *)

(** A counted loop whose round [m] faults, after the rounds from [lo] up
    to [m]. *)
Lemma for_loop_count_fault (I : Z -> world -> Prop) body lo hi m f (k : nat) :
  INT_MIN <= lo -> hi <= INT_MAX -> m < hi ->
  (forall j w, lo <= j < m -> I j w ->
               exists w', body j w = Ok tt w' /\ I (j + 1) w') ->
  (forall w, I m w -> body m w = Fault f) ->
  forall i w,
    lo <= i <= m -> i + Z.of_nat k = hi -> I i w ->
    for_loop k (fun i => i <? hi) (fun i => int_add i 1) body i w = Fault f.
Proof.
  intros Hmin Hmax Hm Hbody Hfault.
  induction k as [|k IH]; intros i w Hi Hk H0; rewrite for_loop_unfold;
    (destruct (Z.ltb_spec i hi); [|lia]); [lia|].
  rewrite bind_run.
  destruct (Z.eq_dec i m) as [->|Hne].
  - rewrite (Hfault w H0). reflexivity.
  - destruct (Hbody i w ltac:(lia) H0) as (w1 & Hb & H1).
    rewrite Hb, (int_succ i hi) by lia.
    apply IH; [lia | lia | exact H1].
Qed.

(** Reading an input at [i] when the cells below [i] of the result are
    written: the value of the cell, or a fault past the end of the block. *)
Lemma load_input_at r xs ys cells w p (zs : list Z) i :
  heap w !! p = Some (Some <$> zs) -> heap w !! r = Some cells ->
  0 <= i -> i <= Z.of_nat (length xs) -> i <= Z.of_nat (length ys) ->
  load (Ptr p) i (multiplied r xs ys cells w i)
  = match zs !! Z.to_nat i with
    | Some z => Ok z (multiplied r xs ys cells w i)
    | None => Fault OutOfBounds
    end.
Proof.
  intros Hp Hr Hi Hxs Hys. unfold load, multiplied. cbn [heap set_heap].
  destruct (Z.ltb_spec i 0); [lia|].
  destruct (decide (p = r)) as [->|Hne].
  - assert (Hc : cells = Some <$> zs) by congruence.
    rewrite lookup_insert_eq.
    rewrite filled_lookup_ge by (rewrite ?products_length; lia).
    rewrite Hc, list_lookup_fmap.
    destruct (zs !! Z.to_nat i); reflexivity.
  - rewrite lookup_insert_ne by done. rewrite Hp, list_lookup_fmap.
    destruct (zs !! Z.to_nat i); reflexivity.
Qed.

Lemma software_vector_multiply_out_of_bounds a b r xs ys cells n w :
  heap w !! a = Some (Some <$> xs) ->
  heap w !! b = Some (Some <$> ys) ->
  heap w !! r = Some cells ->
  n <= INT_MAX ->
  Z.of_nat (length xs) < n \/ Z.of_nat (length ys) < n
  \/ Z.of_nat (length cells) < n ->
  software_vector_multiply (Ptr a) (Ptr b) (Ptr r) n w = Fault OutOfBounds.
Proof.
  intros Ha Hb Hr Hmax Hshort.
  set (m := Z.min (Z.of_nat (length xs))
              (Z.min (Z.of_nat (length ys)) (Z.of_nat (length cells)))).
  assert (Hm : 0 <= m < n) by lia.
  unfold software_vector_multiply, for_range.
  apply (for_loop_count_fault
           (fun i w' => w' = multiplied r xs ys cells w i) _ 0 n m).
  - unfold INT_MIN. lia.
  - exact Hmax.
  - lia.
  - intros j w1 Hj ->. eexists. split; [|reflexivity].
    apply (multiply_step_aliased a b r xs ys cells m w); try assumption; lia.
  - intros w1 ->. rewrite bind_run.
    rewrite (load_input_at r xs ys cells w a xs m) by (assumption || lia).
    destruct (xs !! Z.to_nat m) as [x|] eqn:Hx; [|reflexivity].
    apply lookup_lt_Some in Hx.
    cbv beta iota. rewrite bind_run.
    rewrite (load_input_at r xs ys cells w b ys m) by (assumption || lia).
    destruct (ys !! Z.to_nat m) as [y|] eqn:Hy; [|reflexivity].
    apply lookup_lt_Some in Hy.
    cbv beta iota. unfold store, multiplied. cbn [heap set_heap].
    rewrite lookup_insert_eq.
    rewrite filled_length by (rewrite ?products_length; lia).
    destruct (Z.ltb_spec m 0); [lia|].
    destruct (Z.leb_spec (Z.of_nat (length cells)) m); [reflexivity|lia].
  - lia.
  - lia.
  - unfold multiplied. rewrite filled_0, insert_id by exact Hr.
    symmetry. apply set_heap_id.
Qed.

(** X6. A size above the length of one of the three vectors is caught at
    the first cell past the end: with written inputs, both kernels stop on
    an out-of-bounds fault, whether or not the vectors share storage. *)
Theorem kernels_out_of_bounds (a b r : block) (xs ys : list Z)
    (cells : list (option Z)) (n : Z) (w : world) :
  heap w !! a = Some (Some <$> xs) ->
  heap w !! b = Some (Some <$> ys) ->
  heap w !! r = Some cells ->
  n <= INT_MAX ->
  Z.of_nat (length xs) < n \/ Z.of_nat (length ys) < n
  \/ Z.of_nat (length cells) < n ->
  software_vector_multiply (Ptr a) (Ptr b) (Ptr r) n w = Fault OutOfBounds
  /\ hardware_vector_multiply (Ptr a) (Ptr b) (Ptr r) n w = Fault OutOfBounds.
Proof.
  intros Ha Hb Hr Hmax Hshort.
  assert (Hs := software_vector_multiply_out_of_bounds
                  a b r xs ys cells n w Ha Hb Hr Hmax Hshort).
  split; [exact Hs|].
  unfold hardware_vector_multiply.
  rewrite hardware_vector_multiply_when_unfold, Hs. reflexivity.
Qed.

Lemma kernels_out_of_bounds_witness :
  software_vector_multiply (Ptr 1) (Ptr 2) (Ptr 3) 3 sample_world
  = Fault OutOfBounds
  /\ hardware_vector_multiply (Ptr 1) (Ptr 2) (Ptr 3) 3 sample_world
     = Fault OutOfBounds.
Proof.
  apply (kernels_out_of_bounds 1%positive 2%positive 3%positive [300; 2] [300; 3] [None; None] 3
           sample_world);
    first [reflexivity | unfold INT_MAX; simpl; lia].
Defined.

(** ** The comparison on any memory *)

Lemma compare_loop_sound bs n (fuel : nat) :
  n <= INT_MAX ->
  forall lo w m w',
    0 <= lo ->
    for_loop_break fuel (fun i => i <? n) (fun i => int_add i 1)
      (compare_at bs) lo 1 w = Ok m w' ->
    (m = 1 /\ w' = w /\ forall i, lo <= i < n -> results_agree_at bs w i)
    \/ (m = 0
        /\ exists k h s,
             lo <= k < n
             /\ (forall i, lo <= i < k -> results_agree_at bs w i)
             /\ load (hw_result bs) k w = Ok h w
             /\ load (sw_result bs) k w = Ok s w
             /\ h <> s
             /\ w' = emit [mismatch_line k h s] w).
Proof.
  intros Hmax. induction fuel as [|fuel IH]; intros lo w m w' Hlo;
    rewrite for_loop_break_unfold; destruct (Z.ltb_spec lo n) as [Hlt|Hge];
    try discriminate;
    try (intros E; inversion E; subst; left;
         split; [reflexivity | split; [reflexivity | intros i Hi; lia]]).
  rewrite bind_run. unfold compare_at at 1. rewrite bind_run.
  destruct (load (hw_result bs) lo w) as [h w1|f] eqn:Hh; [|discriminate].
  assert (w1 = w) by (eapply load_world; exact Hh). subst w1.
  cbv beta iota. rewrite bind_run.
  destruct (load (sw_result bs) lo w) as [s w1|f] eqn:Hs; [|discriminate].
  assert (w1 = w) by (eapply load_world; exact Hs). subst w1.
  cbv beta iota. destruct (Z.eqb_spec h s) as [->|Hne]; cbn [negb].
  - cbn [mret M_ret ret]. rewrite (int_succ lo n) by (unfold INT_MIN; lia).
    intros Hrun. apply IH in Hrun; [|lia].
    assert (Hfirst : results_agree_at bs w lo) by (exists s; split; assumption).
    destruct Hrun as [(-> & -> & Hall) | (-> & k & h & s' & Hk & Hbelow & Hrest)].
    + left. split; [reflexivity | split; [reflexivity|]].
      intros i Hi. destruct (Z.eq_dec i lo) as [->|]; [exact Hfirst|].
      apply Hall. lia.
    + right. split; [reflexivity|]. exists k, h, s'.
      split; [lia|]. split; [|exact Hrest].
      intros i Hi. destruct (Z.eq_dec i lo) as [->|]; [exact Hfirst|].
      apply Hbelow. lia.
  - rewrite bind_run, printf_run. cbn [mret M_ret ret].
    intros E. inversion E; subst. right. split; [reflexivity|].
    exists lo, h, s. split; [lia|]. split; [intros i Hi; lia|].
    repeat split; assumption.
Qed.

(** X7. The comparison is sound on any memory and for any two result
    vectors: when it returns, either it returns 1, has printed nothing and
    every pair of cells below the size is written and equal, or it returns
    0 and has printed exactly one line, which names the first index whose
    cells differ, with the two values read there. *)
Theorem verify_results_sound (bs : buffers) (n : Z) (w : world)
    (m : Z) (w' : world) :
  n <= INT_MAX ->
  verify_results bs n w = Ok m w' ->
  (m = 1 /\ w' = w /\ forall i, 0 <= i < n -> results_agree_at bs w i)
  \/ (m = 0
      /\ exists k h s,
           0 <= k < n
           /\ (forall i, 0 <= i < k -> results_agree_at bs w i)
           /\ load (hw_result bs) k w = Ok h w
           /\ load (sw_result bs) k w = Ok s w
           /\ h <> s
           /\ w' = emit [mismatch_line k h s] w).
Proof.
  intros Hmax Hrun. unfold verify_results, for_range_break in Hrun.
  apply (compare_loop_sound bs n (Z.to_nat (n - 0)) Hmax 0 w m w');
    [lia | exact Hrun].
Qed.

Lemma verify_results_sound_witness :
  (0 = 1 /\ emit [mismatch_line 1 7 8] mismatch_world = mismatch_world
   /\ forall i, 0 <= i < 3 ->
        results_agree_at (Buffers NULL NULL (Ptr 1) (Ptr 2)) mismatch_world i)
  \/ (0 = 0
      /\ exists k h s,
           0 <= k < 3
           /\ (forall i, 0 <= i < k ->
                 results_agree_at (Buffers NULL NULL (Ptr 1) (Ptr 2)) mismatch_world i)
           /\ load (hw_result (Buffers NULL NULL (Ptr 1) (Ptr 2))) k mismatch_world
              = Ok h mismatch_world
           /\ load (sw_result (Buffers NULL NULL (Ptr 1) (Ptr 2))) k mismatch_world
              = Ok s mismatch_world
           /\ h <> s
           /\ emit [mismatch_line 1 7 8] mismatch_world
              = emit [mismatch_line k h s] mismatch_world).
Proof.
  apply (verify_results_sound (Buffers NULL NULL (Ptr 1) (Ptr 2)) 3 mismatch_world 0
           (emit [mismatch_line 1 7 8] mismatch_world));
    first [reflexivity | unfold INT_MAX; simpl; lia].
Defined.

(** ** The benchmark on its four vectors *)

(** X8. Once its four vectors are allocated, a benchmark runs to its end
    and accounts for everything it used.  [run_performance_test] is its
    four allocations followed by lines 72-125 ([benchmark_on]); and
    when the four pointers are four separate vectors of [size] cells,
    whatever the cells hold, lines 72-125 return: the four vectors are
    released and the rest of the memory is as it was, the clock was read
    four times, [NUM_TESTS] microseconds were slept in total, and the
    output grew by the five lines of the report and nothing else, with the
    two times taken between the first two and the last two readings and
    the results said to match. *)
Theorem benchmark_accounting (a b hw sw : block) (A B Rh Rs : list (option Z))
    (n : Z) (w : world) :
  a <> b -> a <> hw -> a <> sw -> b <> hw -> b <> sw -> hw <> sw ->
  heap w !! a = Some A -> heap w !! b = Some B ->
  heap w !! hw = Some Rh -> heap w !! sw = Some Rs ->
  length A = Z.to_nat n -> length B = Z.to_nat n ->
  length Rh = Z.to_nat n -> length Rs = Z.to_nat n ->
  0 <= n <= INT_MAX ->
  run_performance_test n = (bs ← allocate_vectors n; benchmark_on bs n)
  /\ exists w',
       benchmark_on (bufs a b hw sw) n w = Ok tt w'
       /\ heap w' = released a b hw sw (heap w)
       /\ clock w' = clock w
       /\ ticks w' = (ticks w + 4)%nat
       /\ slept w' = slept w + NUM_TESTS
       /\ out w' = out w ++ report n (reading w 1 - reading w 0)
                                     (reading w 3 - reading w 2) 1.
Proof.
  intros Hab Hah Has Hbh Hbs Hhs HA HB HH HS HlA HlB HlH HlS Hn.
  split; [apply run_performance_test_body|].
  destruct (benchmark_on_with_run product_cell product_cell a b hw sw
              (released a b hw sw (heap w)) A B Rh Rs n w)
    as (m & lines & Hrun & Hverdict); try assumption;
    try (unfold released; by simplify_map_eq).
  { apply four_of_heap; assumption. }
  apply verdict_equal in Hverdict as [-> ->].
  eexists. split; [exact Hrun|]. destruct w. repeat split.
Qed.

Lemma benchmark_accounting_witness :
  run_performance_test 2 = (bs ← allocate_vectors 2; benchmark_on bs 2)
  /\ exists w',
       benchmark_on (bufs 1%positive 2%positive 3%positive 4%positive) 2
         faulty_world = Ok tt w'
       /\ heap w' = released 1%positive 2%positive 3%positive 4%positive
                    (heap faulty_world)
       /\ clock w' = clock faulty_world
       /\ ticks w' = (ticks faulty_world + 4)%nat
       /\ slept w' = slept faulty_world + NUM_TESTS
       /\ out w' = out faulty_world
                   ++ report 2 (reading faulty_world 1 - reading faulty_world 0)
                               (reading faulty_world 3 - reading faulty_world 2) 1.
Proof.
  apply (benchmark_accounting 1%positive 2%positive 3%positive 4%positive
           [Some 1; Some 2] [Some 3; Some 4]
           [Some 3; Some 8] [Some 3; Some 9] 2 faulty_world);
    first [reflexivity | unfold INT_MAX; lia].
Defined.

(** ** The benchmark at a size of 0 or less *)

(** [sizeof(data_t) * vector_size] for a negative [int]: the product is
    taken in [size_t] and is more than any object may hold. *)
Lemma malloc_data_negative n w :
  INT_MIN <= n < 0 -> malloc_data n w = Ok NULL w.
Proof.
  unfold INT_MIN. intros Hn.
  unfold malloc_data, to_size_t, sizeof_data_t, PTRDIFF_MAX.
  replace (n mod 2 ^ 64) with (n + 2 ^ 64)
    by (apply Z.mod_unique with (q := -1); lia).
  replace ((2 * (n + 2 ^ 64)) mod 2 ^ 64) with (2 * n + 2 ^ 64)
    by (apply Z.mod_unique with (q := 1); lia).
  destruct (Z.ltb_spec (2 ^ 63 - 1) (2 * n + 2 ^ 64)); [reflexivity|lia].
Qed.

Lemma for_range_break_empty {S} lo hi (body : Z -> S -> M (control S)) s w :
  hi <= lo -> for_range_break lo hi body s w = Ok s w.
Proof.
  intros H. unfold for_range_break. rewrite for_loop_break_unfold.
  destruct (Z.ltb_spec lo hi); [lia | reflexivity].
Qed.

Lemma time_hardware_empty bs n w :
  n <= 0 ->
  time_hardware bs n w
  = Ok (reading w 1 - reading w 0)%float
       (set_ticks (ticks w + 2) (set_slept (slept w + NUM_TESTS) w)).
Proof.
  intros Hn. unfold time_hardware.
  erewrite bind_ok by apply get_time_sec_run.
  set (w1 := set_ticks (S (ticks w)) w).
  edestruct (for_range_inv
    (fun j w' => w' = set_slept (slept w + j) w1)
    (fun _ => hardware_vector_multiply (vector_a bs) (vector_b bs)
                (hw_result bs) n) 0 NUM_TESTS w1)
    as (w' & Hrun & ->).
  - unfold INT_MIN. lia.
  - unfold NUM_TESTS. lia.
  - unfold NUM_TESTS, INT_MAX. lia.
  - intros j w2 Hj ->. eexists. split; [|reflexivity].
    rewrite (proj2 (kernels_empty _ _ _ n _ Hn)).
    unfold w1. destruct w. unfold set_slept, set_ticks. simpl.
    do 2 f_equal. lia.
  - rewrite Z.add_0_r. unfold w1. destruct w. reflexivity.
  - erewrite bind_ok by exact Hrun.
    erewrite bind_ok by apply get_time_sec_run.
    subst w1. destruct w as [h c t s o].
    unfold reading, set_ticks, set_slept. cbn [mret M_ret ret].
    cbn [heap clock ticks slept out].
    replace (S t + 0)%nat with (t + 1)%nat by lia.
    replace (S (S t)) with (t + 2)%nat by lia.
    reflexivity.
Qed.

Lemma time_software_empty bs n w :
  n <= 0 ->
  time_software bs n w
  = Ok (reading w 1 - reading w 0)%float (set_ticks (ticks w + 2) w).
Proof.
  intros Hn. unfold time_software.
  erewrite bind_ok by apply get_time_sec_run.
  set (w1 := set_ticks (S (ticks w)) w).
  edestruct (for_range_inv
    (fun (j : Z) w' => w' = w1)
    (fun _ => software_vector_multiply (vector_a bs) (vector_b bs)
                (sw_result bs) n) 0 NUM_TESTS w1)
    as (w' & Hrun & ->).
  - unfold INT_MIN. lia.
  - unfold NUM_TESTS. lia.
  - unfold NUM_TESTS, INT_MAX. lia.
  - intros j w2 Hj ->. eexists. split; [|reflexivity].
    apply (proj1 (kernels_empty _ _ _ n _ Hn)).
  - reflexivity.
  - erewrite bind_ok by exact Hrun.
    erewrite bind_ok by apply get_time_sec_run.
    subst w1. destruct w as [h c t s o].
    unfold reading, set_ticks. cbn [mret M_ret ret].
    cbn [heap clock ticks slept out].
    replace (S t + 0)%nat with (t + 1)%nat by lia.
    replace (S (S t)) with (t + 2)%nat by lia.
    reflexivity.
Qed.

Lemma allocate_vectors_negative n w :
  INT_MIN <= n < 0 ->
  allocate_vectors n w = Ok (Buffers NULL NULL NULL NULL) w.
Proof.
  intros Hn. unfold allocate_vectors.
  do 4 (erewrite bind_ok by (apply malloc_data_negative; exact Hn)).
  reflexivity.
Qed.

(** Lines 72-125 without vectors, at a size of 0 or less. *)
Lemma benchmark_on_null n w :
  n <= 0 ->
  benchmark_on (Buffers NULL NULL NULL NULL) n w = Ok tt (benchmarked n w).
Proof.
  intros Hn. unfold benchmark_on.
  erewrite bind_ok by (apply for_range_empty; lia).
  erewrite bind_ok by (apply time_hardware_empty; lia).
  erewrite bind_ok by (apply time_software_empty; lia).
  erewrite bind_ok by (apply for_range_break_empty; lia).
  erewrite bind_ok by apply print_results_run.
  destruct w as [h c t s o].
  cbv [free_vectors vector_a vector_b hw_result sw_result free
       mbind M_bind bind benchmarked
       emit reading set_ticks set_slept set_heap set_out
       heap clock ticks slept out].
  replace (t + 2 + 0)%nat with (t + 2)%nat by lia.
  replace (t + 2 + 1)%nat with (t + 3)%nat by lia.
  replace (t + 2 + 2)%nat with (t + 4)%nat by lia.
  reflexivity.
Qed.

(** X9. At a size of 0 or less a benchmark never touches its vectors, so
    it needs none: with four null pointers lines 72-125 return, no loop
    but the timed ones having a round; the memory is as it was, the clock
    was read four times, [NUM_TESTS] microseconds were slept, and the five
    lines of the report were printed, with the size as it is and the
    results said to match.  At a negative size this is what
    [run_performance_test] does: the byte count of each allocation, taken
    in [size_t], is above [PTRDIFF_MAX] and [malloc] returns the null
    pointer. *)
Theorem benchmark_without_vectors (n : Z) (w : world) :
  INT_MIN <= n <= 0 ->
  (exists w',
     benchmark_on (Buffers NULL NULL NULL NULL) n w = Ok tt w'
     /\ heap w' = heap w
     /\ clock w' = clock w
     /\ ticks w' = (ticks w + 4)%nat
     /\ slept w' = slept w + NUM_TESTS
     /\ out w' = out w ++ report n (reading w 1 - reading w 0)
                                   (reading w 3 - reading w 2) 1)
  /\ (n < 0 ->
      run_performance_test n w
      = benchmark_on (Buffers NULL NULL NULL NULL) n w).
Proof.
  intros Hn. split.
  - exists (benchmarked n w). split; [apply benchmark_on_null; lia|].
    destruct w. repeat split.
  - intros Hneg. rewrite run_performance_test_body.
    erewrite bind_ok by (apply allocate_vectors_negative; lia).
    reflexivity.
Qed.

Lemma benchmark_without_vectors_witness :
  (exists w',
     benchmark_on (Buffers NULL NULL NULL NULL) (-3) sample_world = Ok tt w'
     /\ heap w' = heap sample_world
     /\ clock w' = clock sample_world
     /\ ticks w' = (ticks sample_world + 4)%nat
     /\ slept w' = slept sample_world + NUM_TESTS
     /\ out w' = out sample_world
                 ++ report (-3) (reading sample_world 1 - reading sample_world 0)
                                (reading sample_world 3 - reading sample_world 2) 1)
  /\ (-3 < 0 ->
      run_performance_test (-3) sample_world
      = benchmark_on (Buffers NULL NULL NULL NULL) (-3) sample_world).
Proof.
  apply (benchmark_without_vectors (-3) sample_world).
  unfold INT_MIN. lia.
Defined.
